(** * geo-streamlit-mini-demo: a shallow embedding of [app.py]

    The script loads a country polygon table, draws 600 seeded sample
    points, selects one country, buffers it for display, joins the points
    against the selection and renders a map, three counters and a CSV
    download.

    Conventions of the embedding.
    - A NumPy/Python [float] is a real number ([R]); rounding, infinities and
      NaN payloads of binary64 are not modelled.  A missing value is the
      explicit cell [CNaN].
    - A Python [str] is a [string] of bytes (its UTF-8 encoding).
    - A pandas/GeoPandas frame is a list of column labels and a list of rows.
    - shapely/GEOS and the NumPy generator are interfaces (type classes) and
      the float printer is a parameter: the script only calls them.
    - Streamlit calls are events appended to a trace; [st.stop()] and Python
      exceptions end the run. *)

From Stdlib Require Import Reals Lra Lia ZArith List String Ascii Bool Arith.
From Stdlib Require Import DecimalString Sorted.
Import ListNotations.

Local Open Scope string_scope.
Local Open Scope list_scope.
Local Open Scope R_scope.

(** ** Floating-point helpers used by [view_from_bounds] *)

(** Python's [a > b] on floats. *)
Definition Rgtb (a b : R) : bool := if Rlt_dec b a then true else false.

(** Python's builtin [max(a, b, c)]: the first maximal argument wins, a later
    one replaces the running maximum only when strictly greater. *)
Definition py_max (xs : list R) (first : R) : R :=
  fold_left (fun m x => if Rgtb x m then x else m) xs first.

(** [np.minimum], [np.maximum] and [np.clip(x, lo, hi)], which NumPy defines
    as [minimum(maximum(x, lo), hi)]. *)
Definition np_maximum (a b : R) : R := if Rgtb b a then b else a.
Definition np_minimum (a b : R) : R := if Rgtb a b then b else a.
Definition np_clip (x lo hi : R) : R := np_minimum (np_maximum x lo) hi.

(** [np.log2]. *)
Definition log2 (x : R) : R := ln x / ln 2.

Definition BBox : Type := (R * R * R * R)%type.

(** Lines 54-59 of [view_from_bounds], after [gdf.total_bounds] has been
    unpacked. *)
Definition view_of_bounds (b : BBox) : R * R * R :=
  let '(minx, miny, maxx, maxy) := b in
  let center_lat := (miny + maxy) / 2 in
  let center_lon := (minx + maxx) / 2 in
  let span := py_max [maxy - miny; 1 / 10] (maxx - minx) in
  let zoom := np_clip (log2 (360 / span)) 2 8 in
  (center_lat, center_lon, zoom).

(** The view-fit rule in the words of the design document, for comparison
    with [view_of_bounds]. *)
Module ViewFitSpec.
Definition clamp (x lo hi : R) : R :=
  if Rlt_dec x lo then lo else if Rlt_dec hi x then hi else x.
Definition span (minx miny maxx maxy : R) : R :=
  Rmax (Rmax (maxx - minx) (maxy - miny)) (1 / 10).
Definition zoom (minx miny maxx maxy : R) : R :=
  clamp (log2 (360 / span minx miny maxx maxy)) 2 8.
End ViewFitSpec.

(** ** Library interfaces *)

(** shapely / GEOS / pyproj, as far as the script calls them. *)
Class Geometry (G : Type) : Type := {
  point : R -> R -> G;              (* [Point((x, y))] *)
  geom_x : G -> R;                  (* [.x] of a point *)
  geom_y : G -> R;                  (* [.y] of a point *)
  buffer : G -> R -> G;             (* [geom.buffer(distance)] *)
  parts : G -> list G;              (* the single parts [explode] yields *)
  to_crs : Z -> Z -> G -> G;        (* reprojection, from EPSG code to EPSG code *)
  within : G -> G -> bool;          (* the [within] predicate *)
  bounds : G -> option BBox;        (* [geom.bounds]; [None] for an empty geometry *)
  representative_point : G -> G;
  wkt : G -> string                 (* [str(geom)] *)
}.

(** What [sel.geometry.buffer(0)] followed by [explode] is relied on to
    deliver: every part is already repaired and is a single part. *)
Class RepairedParts (G : Type) `{Geometry G} : Prop := {
  part_repaired : forall g p, In p (parts (buffer g 0)) -> buffer p 0 = p;
  part_single : forall g p, In p (parts (buffer g 0)) -> parts p = [p]
}.

(** [np.random.Generator]: the generator object is a state that every draw
    advances. *)
Class Generator (S : Type) : Type := {
  default_rng : Z -> S;
  uniform : S -> R -> R -> nat -> list R * S
}.

(** The documented contract of [Generator.uniform(low, high, size)]. *)
Class UniformContract (S : Type) `{Generator S} : Prop := {
  uniform_length : forall s lo hi n, List.length (fst (uniform s lo hi n)) = n;
  uniform_range : forall s lo hi n x,
      lo <= hi -> In x (fst (uniform s lo hi n)) -> lo <= x <= hi
}.

(** ** Strings *)

Definition lower_ascii (a : ascii) : ascii :=
  let n := nat_of_ascii a in
  if ((65 <=? n) && (n <=? 90))%nat then ascii_of_nat (n + 32) else a.

(** [str.lower()] on the bytes of a string; bytes outside [A-Z] (all non-ASCII
    text included) are left as they are. *)
Fixpoint lower (s : string) : string :=
  match s with
  | EmptyString => EmptyString
  | String a s' => String (lower_ascii a) (lower s')
  end.

Definition string_of_Z (z : Z) : string := NilZero.string_of_int (Z.to_int z).

Fixpoint insert_sorted (x : string) (l : list string) : list string :=
  match l with
  | [] => [x]
  | y :: l' => if String.leb x y then x :: l else y :: insert_sorted x l'
  end.

(** [sorted] on a list of [str]. *)
Definition sorted (l : list string) : list string :=
  fold_right insert_sorted [] l.

Definition mem_string (x : string) (l : list string) : bool :=
  existsb (String.eqb x) l.

(** [Series.unique()]: first occurrences, in order. *)
Fixpoint unique (l : list string) (seen : list string) : list string :=
  match l with
  | [] => []
  | x :: l' => if mem_string x seen then unique l' seen
               else x :: unique l' (x :: seen)
  end.

(** [list.index(x)]. *)
Fixpoint index_of (x : string) (l : list string) : option nat :=
  match l with
  | [] => None
  | y :: l' => if String.eqb x y then Some O else option_map S (index_of x l')
  end.

(** ** Outcomes: values, [st.stop()], exceptions *)

Inductive Exn : Type :=
| KeyError (k : string)
| IndexError
| AttributeError
| TypeError.

Inductive Res (A : Type) : Type :=
| Ok (a : A)
| Stop
| Raise (e : Exn).
Arguments Ok {A} a.
Arguments Stop {A}.
Arguments Raise {A} e.

Definition res_bind {A B} (r : Res A) (k : A -> Res B) : Res B :=
  match r with
  | Ok a => k a
  | Stop => Stop
  | Raise e => Raise e
  end.

Definition res_map {A B} (f : A -> B) (r : Res A) : Res B :=
  res_bind r (fun a => Ok (f a)).

(** ** Frames *)

Section Frames.
Context {G : Type} `{Geometry G}.

Inductive Cell : Type :=
| CInt (z : Z)
| CFloat (r : R)
| CStr (s : string)
| CBool (b : bool)
| CNaN
| CGeom (g : G).

Record DataFrame : Type := {
  columns : list string;
  rows : list (list Cell)
}.

Definition col_index (c : string) (cols : list string) : option nat :=
  index_of c cols.

Definition cell_at (i : nat) (r : list Cell) : Cell := nth i r CNaN.

(** [c in df.columns] *)
Definition has_column (df : DataFrame) (c : string) : bool :=
  mem_string c (columns df).

(** [df[c]] *)
Definition getitem (df : DataFrame) (c : string) : Res (list Cell) :=
  match col_index c (columns df) with
  | Some i => Ok (map (cell_at i) (rows df))
  | None => Raise (KeyError c)
  end.

(** [df.rename(columns={c: c'})] *)
Definition rename (df : DataFrame) (c c' : string) : DataFrame :=
  {| columns := map (fun k => if String.eqb k c then c' else k) (columns df);
     rows := rows df |}.

(** Boolean-mask selection on the column at position [i]: the rows whose
    cell there passes the element-wise test, in order. *)
Definition filter_rows (df : DataFrame) (i : nat) (test : Cell -> bool)
  : DataFrame :=
  {| columns := columns df;
     rows := filter (fun r => test (cell_at i r)) (rows df) |}.

(** [df[test(df[c])]] *)
Definition where_col (df : DataFrame) (c : string) (test : Cell -> bool)
  : Res DataFrame :=
  match col_index c (columns df) with
  | Some i => Ok (filter_rows df i test)
  | None => Raise (KeyError c)
  end.

Fixpoint indices (cs : list string) (cols : list string) : Res (list nat) :=
  match cs with
  | [] => Ok []
  | c :: cs' =>
      match col_index c cols with
      | Some i => res_map (cons i) (indices cs' cols)
      | None => Raise (KeyError c)
      end
  end.

(** [df[[c1, ..., cn]]] *)
Definition take_columns (df : DataFrame) (cs : list string) : Res DataFrame :=
  res_map (fun ix => {| columns := cs;
                        rows := map (fun r => map (fun i => cell_at i r) ix)
                                    (rows df) |})
          (indices cs (columns df)).

Fixpoint remove_nth {A} (i : nat) (l : list A) : list A :=
  match l, i with
  | [], _ => []
  | _ :: l', O => l'
  | x :: l', S i' => x :: remove_nth i' l'
  end.

Fixpoint set_nth {A} (i : nat) (v : A) (l : list A) : list A :=
  match l, i with
  | [], _ => []
  | _ :: l', O => v :: l'
  | x :: l', S i' => x :: set_nth i' v l'
  end.

(** [df.drop(columns=[c])] *)
Definition drop_column (df : DataFrame) (c : string) : Res DataFrame :=
  match col_index c (columns df) with
  | Some i => Ok {| columns := remove_nth i (columns df);
                    rows := map (remove_nth i) (rows df) |}
  | None => Raise (KeyError c)
  end.

(** [df[c] = f(df[c'])] for a label [c] that is new to the frame. *)
Definition add_column (df : DataFrame) (c c' : string) (f : Cell -> Cell)
  : Res DataFrame :=
  match col_index c' (columns df) with
  | Some i => Ok {| columns := columns df ++ [c];
                    rows := map (fun r => r ++ [f (cell_at i r)]) (rows df) |}
  | None => Raise (KeyError c')
  end.

(** [df.geometry = g(df.geometry)], element-wise; a missing geometry stays
    missing. *)
Definition map_geometry (f : G -> G) (df : DataFrame) : Res DataFrame :=
  match col_index "geometry" (columns df) with
  | Some i =>
      Ok {| columns := columns df;
            rows := map (fun r => match cell_at i r with
                                  | CGeom g => set_nth i (CGeom (f g)) r
                                  | _ => r
                                  end) (rows df) |}
  | None => Raise AttributeError
  end.

(** [df.explode(index_parts=False, ignore_index=True)]: one row per single
    part, the other cells repeated; the index is the row position.  A
    missing geometry has no part ([shapely.get_parts] skips it), so its row
    yields none. *)
Definition explode (df : DataFrame) : Res DataFrame :=
  match col_index "geometry" (columns df) with
  | Some i =>
      Ok {| columns := columns df;
            rows := flat_map
                      (fun r => match cell_at i r with
                                | CGeom g =>
                                    map (fun p => set_nth i (CGeom p) r) (parts g)
                                | _ => []
                                end) (rows df) |}
  | None => Raise AttributeError
  end.

(** [df.geometry], as a list of cells. *)
Definition geometry (df : DataFrame) : Res (list Cell) :=
  match col_index "geometry" (columns df) with
  | Some i => Ok (map (cell_at i) (rows df))
  | None => Raise AttributeError
  end.

Definition geoms (cs : list Cell) : list G :=
  flat_map (fun c => match c with CGeom g => [g] | _ => [] end) cs.

(** [np.nanmin] / [np.nanmax] over the per-geometry bounds. *)
Definition merge_bounds (acc : option BBox) (b : option BBox) : option BBox :=
  match acc, b with
  | Some (x0, y0, x1, y1), Some (a0, b0, a1, b1) =>
      Some (Rmin x0 a0, Rmin y0 b0, Rmax x1 a1, Rmax y1 b1)
  | None, b => b
  | acc, None => acc
  end.

(** [gdf.total_bounds]; [None] is the all-NaN array of a frame in which no
    geometry has bounds. *)
Definition total_bounds (df : DataFrame) : option BBox :=
  match geometry df with
  | Ok cs => fold_left merge_bounds (map bounds (geoms cs)) None
  | _ => None
  end.

(** [view_from_bounds(gdf)]; [None] is the triple of NaN the arithmetic
    yields on all-NaN bounds. *)
Definition view_from_bounds (gdf : DataFrame) : option (R * R * R) :=
  option_map view_of_bounds (total_bounds gdf).

Fixpoint enumerate {A} (i : nat) (l : list A) : list (nat * A) :=
  match l with
  | [] => []
  | x :: l' => (i, x) :: enumerate (S i) l'
  end.

Definition cell_within (a b : Cell) : bool :=
  match a, b with
  | CGeom p, CGeom g => within p g
  | _, _ => false
  end.

(** The right rows a left row matches, with their index. *)
Definition matches (gl gr : nat) (right : list (list Cell)) (l : list Cell)
  : list (nat * list Cell) :=
  filter (fun jr => cell_within (cell_at gl l) (cell_at gr (snd jr)))
         (enumerate 0 right).

(** [gpd.sjoin(left, right, predicate="within", how="left")].  GeoPandas
    returns one row per (left row, matching right row) pair and one row,
    padded with missing values, per left row without a match; the columns
    are those of [left], then [index_right], then the columns of [right]
    other than its geometry.  (No label is shared by the two frames the
    script passes, so no suffix is added.) *)
Definition sjoin (left right : DataFrame) : Res DataFrame :=
  match col_index "geometry" (columns left),
        col_index "geometry" (columns right) with
  | Some gl, Some gr =>
      let rcols := remove_nth gr (columns right) in
      Ok {| columns := columns left ++ "index_right" :: rcols;
            rows := flat_map
                      (fun l =>
                         match matches gl gr (rows right) l with
                         | [] => [l ++ CNaN :: map (fun _ => CNaN) rcols]
                         | ms => map (fun jr => l ++ CInt (Z.of_nat (fst jr))
                                                  :: remove_nth gr (snd jr)) ms
                         end) (rows left) |}
  | _, _ => Raise AttributeError
  end.

(** Element-wise tests. *)
Definition str_eq (s : string) (c : Cell) : bool :=
  match c with CStr s' => String.eqb s' s | _ => false end.

(** [series.str.lower() != s] *)
Definition lower_ne (s : string) (c : Cell) : bool :=
  match c with CStr s' => negb (String.eqb (lower s') s) | _ => true end.

Definition notna (c : Cell) : Cell :=
  match c with CNaN => CBool false | _ => CBool true end.

Definition is_true (c : Cell) : bool :=
  match c with CBool true => true | _ => false end.

Definition is_not_true (c : Cell) : bool :=
  match c with CBool false => true | _ => false end.

Definition cell_strings (cs : list Cell) : option (list string) :=
  fold_right (fun c acc => match c, acc with
                           | CStr s, Some l => Some (s :: l)
                           | _, _ => None
                           end) (Some []) cs.
End Frames.

Arguments Cell : clear implicits.
Arguments DataFrame : clear implicits.

(** ** Streamlit: the trace of a run *)

Section Script.
Context {G : Type} `{Geometry G} {S : Type} `{Generator S}.

(** [repr] of a float, as [to_csv] prints it. *)
Variable repr_float : R -> string.

Inductive Layer : Type :=
| GeoJsonLayer (data : DataFrame G) (stroked filled : bool)
               (get_fill_color : option (list Z)) (get_line_color : list Z)
               (line_width_min_pixels : Z) (wrapLongitude : bool)
| ScatterplotLayer (data : DataFrame G) (get_position : string)
                   (get_radius : Z) (radius_units : string)
                   (get_fill_color : list Z) (pickable : bool).

(** The library calls of the rendering part of the script (lines 70-139). *)
Inductive LibOp : Type :=
| OpRepair            (* [sel.geometry.buffer(0)] *)
| OpExplode
| OpToCrs (epsg : Z)
| OpBuffer (meters : Z)
| OpSjoin
| OpRepresentativePoint
| OpLayer             (* [pdk.Layer(...)] *)
| OpViewFit           (* [view_from_bounds(sel)] *)
| OpToCsv.

Inductive Event : Type :=
| SetPageConfig (page_title layout : string)
| Title (body : string)
| Markdown (body : string)
| Header (body : string)
| Selectbox (label : string) (options : list string) (index : nat)
| Slider (label : string) (min_value max_value value step : Z)
| Checkbox (label : string) (value : bool)
| Metric (label value : string)
| PydeckChart (layers : list Layer) (view : option (R * R * R))
| DownloadButton (label data file_name mime : string)
| Caption (body : string)
| ErrorMessage (e : Exn)      (* Streamlit's exception box *)
| Call (op : LibOp).

(** A run: the events so far and how the run stands. *)
Definition M (A : Type) : Type := (list Event * Res A)%type.

Definition ret {A} (a : A) : M A := ([], Ok a).

Definition bind {A B} (m : M A) (k : A -> M B) : M B :=
  match snd m with
  | Ok a => (fst m ++ fst (k a), snd (k a))
  | Stop => (fst m, Stop)
  | Raise e => (fst m, Raise e)
  end.

Definition emit (e : Event) : M unit := ([e], Ok tt).
Definition lift {A} (r : Res A) : M A := ([], r).
Definition call {A} (op : LibOp) (r : Res A) : M A := ([Call op], r).
(** [st.stop()] *)
Definition stop {A} : M A := ([], Stop).

(** An exception that reaches the top of the script is shown on the page. *)
Definition run {A} (m : M A) : M A :=
  match snd m with
  | Raise e => (fst m ++ [ErrorMessage e], Raise e)
  | _ => m
  end.

Notation "x <- m ;; k" := (bind m (fun x => k))
  (at level 61, m at next level, right associativity).
Notation "m ;;; k" := (bind m (fun _ => k))
  (at level 61, right associativity).

(** *** [load_data] *)

Definition name_candidates : list string :=
  ["name"; "ADMIN"; "NAME"; "NAME_LONG"; "admin"; "name_long"].

(** Lines 29-32: the first candidate label present is renamed to [name]. *)
Fixpoint standardise_name (cs : list string) (countries : DataFrame G)
  : DataFrame G :=
  match cs with
  | [] => countries
  | c :: cs' => if has_column countries c then rename countries c "name"
                else standardise_name cs' countries
  end.

(** Lines 35-36. *)
Definition drop_antarctica (countries : DataFrame G) : DataFrame G :=
  match col_index "name" (columns countries) with
  | Some i => filter_rows countries i (lower_ne "antarctica")
  | None => countries
  end.

(** Lines 40-47.  The two draws advance one generator; ids, latitudes,
    longitudes and points are aligned row by row. *)
Definition sample_points : DataFrame G :=
  let rng := default_rng 42 in
  let (lats, rng1) := uniform rng (-60) 75 600 in
  let (lons, _) := uniform rng1 (-180) 180 600 in
  let ids := map Z.of_nat (seq 0 (List.length lats)) in
  {| columns := ["id"; "lat"; "lon"; "geometry"];
     rows := map (fun r => let '(i, (la, lo)) := r in
                           [CInt i; CFloat la; CFloat lo; CGeom (point lo la)])
                 (combine ids (combine lats lons)) |}.

(** [load_data()], given what [gpd.read_file(NAT_EARTH_URL).to_crs(4326)]
    returned. *)
Definition load_data (fetched : DataFrame G) : DataFrame G * DataFrame G :=
  let countries := standardise_name name_candidates fetched in
  let countries := drop_antarctica countries in
  (countries, sample_points).

(** *** CSV *)

Definition dquote : ascii := ascii_of_nat 34.
Definition newline : string := String (ascii_of_nat 10) EmptyString.

Definition special (a : ascii) : bool :=
  let n := nat_of_ascii a in
  ((n =? 44) || (n =? 34) || (n =? 10) || (n =? 13))%nat.

Fixpoint needs_quote (s : string) : bool :=
  match s with
  | EmptyString => false
  | String a s' => special a || needs_quote s'
  end.

Fixpoint double_quotes (s : string) : string :=
  match s with
  | EmptyString => EmptyString
  | String a s' =>
      if (nat_of_ascii a =? 34)%nat
      then String dquote (String dquote (double_quotes s'))
      else String a (double_quotes s')
  end.

(** [csv.QUOTE_MINIMAL] *)
Definition csv_field (s : string) : string :=
  if needs_quote s
  then String dquote (double_quotes s ++ String dquote EmptyString)%string
  else s.

Definition show_cell (c : Cell G) : string :=
  match c with
  | CInt z => string_of_Z z
  | CFloat r => repr_float r
  | CStr s => s
  | CBool true => "True"
  | CBool false => "False"
  | CNaN => ""
  | CGeom g => wkt g
  end.

Definition csv_line (fields : list string) : string :=
  (String.concat "," (map csv_field fields) ++ newline)%string.

(** [df.to_csv(index=False)] *)
Definition to_csv (df : DataFrame G) : string :=
  String.concat "" (csv_line (columns df)
                      :: map (fun r => csv_line (map show_cell r)) (rows df)).

(** [s.encode("utf-8")]: a [str] is kept as its UTF-8 bytes already. *)
Definition encode_utf8 (s : string) : string := s.

(** *** The script *)

(** What the widgets of the sidebar return in this run.  Streamlit hands
    back one of the options it was given; the embedding takes the value as
    it comes. *)
Record Inputs : Type := {
  country_name : string;
  buffer_km : Z;
  show_all_countries : bool;
  show_points_outside : bool
}.

(** The frames and figures a completed run has computed. *)
Record Render : Type := {
  sel : DataFrame G;
  buffered : DataFrame G;
  joined : DataFrame G;
  inside_pts : DataFrame G;
  outside_pts : DataFrame G;
  center : R * R;
  layers : list Layer;
  view : option (R * R * R);
  csv : string
}.

Definition title_text : string :=
  "GeoPandas + Streamlit: Minimal Spatial Analytics Demo".
Definition intro_text : string :=
  "This demo uses **GeoPandas** to do a basic spatial workflow and **Streamlit** to show an interactive map via **pydeck** (deck.gl).".
Definition under_the_hood_text : string :=
  "- Load countries; - Compute a **buffer**; - **sjoin**; - Visualise with **pydeck**; download the joined table as CSV.".

(** [sorted(countries["name"].unique())].  A label that is not a [str]
    cannot be ordered against one that is; a column in which some label is
    not a [str] is given that outcome as a whole. *)
Definition options_of (names : list (Cell G)) : Res (list string) :=
  match cell_strings names with
  | Some l => Ok (sorted (unique l []))
  | None => Raise TypeError
  end.

Definition buffer_cell (d : R) (c : Cell G) : Cell G :=
  match c with CGeom g => CGeom (buffer g d) | _ => c end.

Definition count_true (cs : list (Cell G)) : nat :=
  List.length (filter is_true cs).

(** [series.iloc[0]] on the representative points, then [.y] and [.x]. *)
Definition first_representative (gs : list (Cell G)) : Res G :=
  match gs with
  | [] => Raise IndexError
  | CGeom g :: _ => Ok (representative_point g)
  | _ :: _ => Raise AttributeError
  end.

Definition append_if {A} (b : bool) (l : list A) (m : M A) : M (list A) :=
  if b then x <- m ;; ret (l ++ [x]) else ret l.

(** Lines 61-68: the sidebar.  The widgets' return values are [inp]. *)
Definition sidebar (countries : DataFrame G) : M unit :=
  emit (Header "Controls") ;;;
  names <- lift (getitem countries "name") ;;
  options <- lift (options_of names) ;;
  let default_idx := match index_of "New Zealand" options with
                     | Some i => i
                     | None => O
                     end in
  emit (Selectbox "Country:" options default_idx) ;;;
  emit (Slider "Buffer distance (km)" 0 200 50 10) ;;;
  emit (Checkbox "Show all country boundaries" true) ;;;
  emit (Checkbox "Show points outside country" false).

(** Lines 70-75: the selection pipeline. *)
Definition selection (countries : DataFrame G) (name : string)
  : M (DataFrame G) :=
  sel0 <- lift (where_col countries "name" (str_eq name)) ;;
  match rows sel0 with
  | [] => stop
  | _ :: _ =>
      sel1 <- call OpRepair (map_geometry (fun g => buffer g 0) sel0) ;;
      call OpExplode (explode sel1)
  end.

(** Lines 77-80: the buffer, in metres, in Web Mercator. *)
Definition buffering (sel : DataFrame G) (km : Z) : M (DataFrame G) :=
  sel_3857 <- call (OpToCrs 3857) (map_geometry (to_crs 4326 3857) sel) ;;
  let metres := (km * 1000)%Z in
  buffered_3857 <- call (OpBuffer metres)
                     (res_map (map (buffer_cell (IZR metres)))
                              (geometry sel_3857)) ;;
  call (OpToCrs 4326)
       (map_geometry (to_crs 3857 4326)
          {| columns := ["geometry"];
             rows := map (fun c => [c]) buffered_3857 |}).

(** Lines 83-84: the membership join. *)
Definition membership (pts sel : DataFrame G) : M (DataFrame G) :=
  right <- lift (take_columns sel ["name"; "geometry"]) ;;
  joined0 <- call OpSjoin (sjoin pts right) ;;
  lift (add_column joined0 "inside" "name" notna).

(** Lines 97-123. *)
Definition build_layers (inp : Inputs)
           (countries sel buffered inside_pts outside_pts : DataFrame G)
  : M (list Layer) :=
  l1 <- append_if (show_all_countries inp) []
          (call OpLayer (Ok (GeoJsonLayer countries true false None
                               [100; 100; 100; 120]%Z 1 true))) ;;
  l2 <- append_if true l1
          (call OpLayer (Ok (GeoJsonLayer sel true true
                               (Some [30; 144; 255; 60]%Z)
                               [30; 144; 255; 200]%Z 2 true))) ;;
  l3 <- append_if (0 <? buffer_km inp)%Z l2
          (call OpLayer (Ok (GeoJsonLayer buffered true false None
                               [255; 140; 0; 180]%Z 2 true))) ;;
  l4 <- append_if (0 <? List.length (rows inside_pts))%nat l3
          (call OpLayer (Ok (ScatterplotLayer inside_pts "[lon, lat]"
                               20000 "meters" [0; 122; 255; 180]%Z true))) ;;
  append_if (show_points_outside inp
             && (0 <? List.length (rows outside_pts))%nat) l4
          (call OpLayer (Ok (ScatterplotLayer outside_pts "[lon, lat]"
                               15000 "meters" [120; 120; 120; 120]%Z true))).

(** Line 139: the exported table and its text. *)
Definition export_table (joined : DataFrame G) : Res (DataFrame G) :=
  drop_column joined "geometry".

Definition export (joined : DataFrame G) : M string :=
  table <- lift (export_table joined) ;;
  call OpToCsv (Ok (encode_utf8 (to_csv table))).

(** Lines 9-143, top to bottom. *)
Definition app (fetched : DataFrame G) (inp : Inputs) : M Render :=
  emit (SetPageConfig "GeoPandas + Streamlit Mini Demo" "wide") ;;;
  emit (Title title_text) ;;;
  emit (Markdown intro_text) ;;;
  let (countries, pts) := load_data fetched in
  sidebar countries ;;;
  sel <- selection countries (country_name inp) ;;
  buffered <- buffering sel (buffer_km inp) ;;
  joined <- membership pts sel ;;
  ins <- lift (where_col joined "inside" is_true) ;;
  inside_pts <- lift (take_columns ins ["lat"; "lon"; "id"]) ;;
  outs <- lift (where_col joined "inside" is_not_true) ;;
  outside_pts <- lift (take_columns outs ["lat"; "lon"; "id"]) ;;
  gs <- lift (geometry sel) ;;
  rep <- call OpRepresentativePoint (first_representative gs) ;;
  let center := (geom_y rep, geom_x rep) in
  (* counters *)
  flags <- lift (getitem joined "inside") ;;
  emit (Metric "Points inside"
               (string_of_Z (Z.of_nat (count_true flags)))) ;;;
  emit (Metric "Total points"
               (string_of_Z (Z.of_nat (List.length (rows joined))))) ;;;
  emit (Metric "Buffer (km)" (string_of_Z (buffer_km inp))) ;;;
  layers <- build_layers inp countries sel buffered inside_pts outside_pts ;;
  v <- call OpViewFit (Ok (view_from_bounds sel)) ;;
  emit (PydeckChart layers v) ;;;
  emit (Markdown under_the_hood_text) ;;;
  text <- export joined ;;
  emit (DownloadButton "Download joined points (CSV)" text
                       "joined_points.csv" "text/csv") ;;;
  emit (Caption "Tip: tweak the country and buffer in the sidebar.") ;;;
  ret {| sel := sel; buffered := buffered; joined := joined;
         inside_pts := inside_pts; outside_pts := outside_pts;
         center := center; layers := layers; view := v; csv := text |}.

(** The number line 93 shows as "Points inside". *)
Definition points_inside (r : Render) : Res nat :=
  res_map count_true (getitem (joined r) "inside").

(** The same widget values, with the slider at [km]. *)
Definition with_buffer (inp : Inputs) (km : Z) : Inputs :=
  {| country_name := country_name inp; buffer_km := km;
     show_all_countries := show_all_countries inp;
     show_points_outside := show_points_outside inp |}.

(** One script run as Streamlit executes it. *)
Definition main (fetched : DataFrame G) (inp : Inputs) : M Render :=
  run (app fetched inp).

(** *** Vocabulary of the statements *)

(** The page as it stands when the script reaches line 70. *)
Definition page_before_selection (options : list string) : list Event :=
  [ SetPageConfig "GeoPandas + Streamlit Mini Demo" "wide";
    Title title_text;
    Markdown intro_text;
    Header "Controls";
    Selectbox "Country:" options
              match index_of "New Zealand" options with
              | Some i => i
              | None => O
              end;
    Slider "Buffer distance (km)" 0 200 50 10;
    Checkbox "Show all country boundaries" true;
    Checkbox "Show points outside country" false ].

(** The geometry cell of a row of [df]. *)
Definition geometry_cell (df : DataFrame G) (row : list (Cell G)) : Cell G :=
  match col_index "geometry" (columns df) with
  | Some g => cell_at g row
  | None => CNaN
  end.

(** The number of rows of [sel] whose geometry the cell [pt] lies within. *)
Definition pieces_around (sel : DataFrame G) (pt : Cell G) : nat :=
  match col_index "geometry" (columns sel) with
  | Some g => List.length (filter (fun r => cell_within pt (cell_at g r))
                                  (rows sel))
  | None => O
  end.

(** The three steps of the pipeline on rows, with the positions of the
    [name] and [geometry] columns. *)
Definition keep_row (name : string) (ni : nat) (r : list (Cell G)) : bool :=
  str_eq name (cell_at ni r).

Definition repair_row (gi : nat) (r : list (Cell G)) : list (Cell G) :=
  match cell_at gi r with
  | CGeom g => set_nth gi (CGeom (buffer g 0)) r
  | _ => r
  end.

Definition explode_row (gi : nat) (r : list (Cell G)) : list (list (Cell G)) :=
  match cell_at gi r with
  | CGeom g => map (fun p => set_nth gi (CGeom p) r) (parts g)
  | _ => []
  end.

End Script.

(** ** The page of a run, in display order *)

Section Page.
Context {G : Type} `{Geometry G}.

(** The library calls from the selection down to the representative point
    (lines 74-89). *)
Definition rendering_calls (km : Z) : list (Event (G:=G)) :=
  [ Call OpRepair; Call OpExplode;
    Call (OpToCrs 3857); Call (OpBuffer (km * 1000)); Call (OpToCrs 4326);
    Call OpSjoin; Call OpRepresentativePoint ].

(** What lines 74-143 add to the page in a run that computes [r] and counts
    [n_inside] flagged rows. *)
Definition page_after_selection (inp : Inputs) (n_inside : nat) (r : Render)
  : list (Event (G:=G)) :=
  rendering_calls (buffer_km inp)
  ++ [ Metric "Points inside" (string_of_Z (Z.of_nat n_inside));
       Metric "Total points"
              (string_of_Z (Z.of_nat (List.length (rows (joined r)))));
       Metric "Buffer (km)" (string_of_Z (buffer_km inp)) ]
  ++ repeat (Call OpLayer) (List.length (layers r))
  ++ [ Call OpViewFit;
       PydeckChart (layers r) (view r);
       Markdown under_the_hood_text;
       Call OpToCsv;
       DownloadButton "Download joined points (CSV)" (csv r)
                      "joined_points.csv" "text/csv";
       Caption "Tip: tweak the country and buffer in the sidebar." ].

(** The rows the Membership Table holds for the point row [l], whose geometry
    is its fourth cell: one per matching row of [sel], or one marked as
    unmatched. *)
Definition table_rows (name : string) (sel : DataFrame G) (gi : nat)
           (l : list (Cell G)) : list (list (Cell G)) :=
  match filter (fun jr => cell_within (cell_at 3 l) (cell_at gi (snd jr)))
               (enumerate 0 (rows sel)) with
  | [] => [l ++ [CNaN; CNaN; CBool false]]
  | ms => map (fun jr => l ++ [CInt (Z.of_nat (fst jr)); CStr name; CBool true]) ms
  end.

(** The buffered counterpart of a geometry cell (lines 78-80). *)
Definition buffered_cell (km : Z) (c : Cell G) : Cell G :=
  match c with
  | CGeom g => CGeom (to_crs 3857 4326
                        (buffer (to_crs 4326 3857 g) (IZR (km * 1000))))
  | _ => c
  end.
End Page.

(** ** A small instance of the interfaces

    Axis-parallel boxes stand in for polygons and a linear congruential
    generator for NumPy's; they are used to run the script on concrete
    tables. *)

Module Demo.
Definition Rltb (a b : R) : bool := if Rlt_dec a b then true else false.

Inductive shape : Type :=
| Pt (x y : R)
| Boxes (bs : list BBox).

Definition grow (d : R) (b : BBox) : BBox :=
  let '(x0, y0, x1, y1) := b in (x0 - d, y0 - d, x1 + d, y1 + d).

Definition inside (x y : R) (b : BBox) : bool :=
  let '(x0, y0, x1, y1) := b in
  Rltb x0 x && Rltb x x1 && Rltb y0 y && Rltb y y1.

Definition hull (a b : BBox) : BBox :=
  let '(x0, y0, x1, y1) := a in
  let '(a0, b0, a1, b1) := b in
  (Rmin x0 a0, Rmin y0 b0, Rmax x1 a1, Rmax y1 b1).

#[export] Instance shape_geometry : Geometry shape := {|
  point := Pt;
  geom_x g := match g with Pt x _ => x | Boxes _ => 0 end;
  geom_y g := match g with Pt _ y => y | Boxes _ => 0 end;
  buffer g d := match g with
                | Pt x y => Pt x y
                | Boxes bs => Boxes (map (grow d) bs)
                end;
  parts g := match g with
             | Pt x y => [Pt x y]
             | Boxes bs => map (fun b => Boxes [b]) bs
             end;
  to_crs _ _ g := g;
  within a b := match a, b with
                | Pt x y, Boxes bs => existsb (inside x y) bs
                | _, _ => false
                end;
  bounds g := match g with
              | Pt x y => Some (x, y, x, y)
              | Boxes [] => None
              | Boxes (b :: bs) => Some (fold_left hull bs b)
              end;
  representative_point g :=
    match g with
    | Boxes ((x0, y0, x1, y1) :: _) => Pt ((x0 + x1) / 2) ((y0 + y1) / 2)
    | _ => g
    end;
  wkt _ := "GEOMETRY"
|}.

Definition lcg (s : Z) : Z := ((s * 75 + 74) mod 65537)%Z.

Fixpoint draws (s : Z) (lo hi : R) (n : nat) : list R * Z :=
  match n with
  | O => ([], s)
  | S n' =>
      let s' := lcg s in
      let (l, s'') := draws s' lo hi n' in
      (lo + (hi - lo) * (IZR s' / 65537) :: l, s'')
  end.

#[export] Instance lcg_generator : Generator Z := {|
  default_rng seed := seed;
  uniform := draws
|}.

Definition repr_float (_ : R) : string := "0.0".

Definition world : BBox := (-200, -100, 200, 100).

(** Two features carry the same name and cover the same ground; a third
    is the polar landmass. *)
Definition twins : DataFrame shape :=
  {| columns := ["ADMIN"; "geometry"];
     rows := [ [CStr "Atlantis"; CGeom (Boxes [world])];
               [CStr "Atlantis"; CGeom (Boxes [world])];
               [CStr "Antarctica"; CGeom (Boxes [(-180, -90, 180, -60)])] ] |}.

(** One feature with a box of bounds (-10, -5, 10, 5). *)
Definition island : DataFrame shape :=
  {| columns := ["NAME"; "geometry"];
     rows := [ [CStr "Isla"; CGeom (Boxes [(-10, -5, 10, 5)])];
               [CStr "ANTARCTICA"; CGeom (Boxes [(-180, -90, 180, -60)])] ] |}.

(** A feature whose shape record is null. *)
Definition nullshape : DataFrame shape :=
  {| columns := ["name"; "geometry"];
     rows := [ [CStr "Nowhere"; CNaN] ] |}.

(** The selection of "Atlantis" in [twins]: two rows, one per feature. *)
Definition atlantis : DataFrame shape :=
  {| columns := ["name"; "geometry"];
     rows := [ [CStr "Atlantis"; CGeom (Boxes [grow 0 world])];
               [CStr "Atlantis"; CGeom (Boxes [grow 0 world])] ] |}.

(** The selection of "Isla" in [island]. *)
Definition isla : DataFrame shape :=
  {| columns := ["name"; "geometry"];
     rows := [ [CStr "Isla"; CGeom (Boxes [grow 0 (-10, -5, 10, 5)])] ] |}.

(** A table that carries none of the candidate labels. *)
Definition unnamed : DataFrame shape :=
  {| columns := ["SOVEREIGNT"; "geometry"];
     rows := [ [CStr "Atlantis"; CGeom (Boxes [world])] ] |}.

(** What the selection of "Nowhere" in [nullshape] comes to. *)
Definition nowhere : DataFrame shape :=
  {| columns := ["name"; "geometry"]; rows := [] |}.

Definition pick (name : string) (km : Z) : Inputs :=
  {| country_name := name; buffer_km := km;
     show_all_countries := true; show_points_outside := false |}.
End Demo.
(** * Properties

    ** The view-fit heuristic *)

Lemma Rgtb_true (a b : R) : Rgtb a b = true <-> b < a.
Proof. unfold Rgtb; destruct (Rlt_dec b a); split; intros; try easy. Qed.

Lemma Rgtb_false (a b : R) : Rgtb a b = false <-> a <= b.
Proof.
  unfold Rgtb; destruct (Rlt_dec b a); split; intros; try easy; lra.
Qed.

Lemma py_max3_Rmax (a b c : R) : py_max [b; c] a = Rmax (Rmax a b) c.
Proof.
  unfold py_max; simpl.
  destruct (Rgtb b a) eqn:E1.
  - apply Rgtb_true in E1. rewrite (Rmax_right a b) by lra.
    destruct (Rgtb c b) eqn:E2.
    + apply Rgtb_true in E2. rewrite Rmax_right; lra.
    + apply Rgtb_false in E2. rewrite Rmax_left; lra.
  - apply Rgtb_false in E1. rewrite (Rmax_left a b) by lra.
    destruct (Rgtb c a) eqn:E2.
    + apply Rgtb_true in E2. rewrite Rmax_right; lra.
    + apply Rgtb_false in E2. rewrite Rmax_left; lra.
Qed.

Lemma np_clip_clamp (x lo hi : R) :
  lo <= hi -> np_clip x lo hi = ViewFitSpec.clamp x lo hi.
Proof.
  intros Hlh. unfold np_clip, np_minimum, np_maximum, ViewFitSpec.clamp.
  destruct (Rgtb lo x) eqn:E1.
  - apply Rgtb_true in E1. destruct (Rlt_dec x lo); [|lra].
    destruct (Rgtb lo hi) eqn:E2; [apply Rgtb_true in E2; lra | reflexivity].
  - apply Rgtb_false in E1. destruct (Rlt_dec x lo); [lra|].
    destruct (Rgtb x hi) eqn:E2.
    + apply Rgtb_true in E2. destruct (Rlt_dec hi x); [reflexivity | lra].
    + apply Rgtb_false in E2. destruct (Rlt_dec hi x); [lra | reflexivity].
Qed.

Lemma np_clip_bounds (x lo hi : R) :
  lo <= hi -> lo <= np_clip x lo hi <= hi.
Proof.
  intros Hlh. unfold np_clip, np_minimum, np_maximum.
  destruct (Rgtb lo x) eqn:E1.
  - apply Rgtb_true in E1.
    destruct (Rgtb lo hi) eqn:E2; [apply Rgtb_true in E2 | apply Rgtb_false in E2]; lra.
  - apply Rgtb_false in E1.
    destruct (Rgtb x hi) eqn:E2; [apply Rgtb_true in E2 | apply Rgtb_false in E2]; lra.
Qed.

Lemma ln2_pos : 0 < ln 2.
Proof. rewrite <- ln_1. apply ln_increasing; lra. Qed.

Lemma log2_pow2 (n : nat) : log2 (2 ^ n) = INR n.
Proof.
  unfold log2. induction n as [|n IH].
  - simpl. rewrite ln_1. unfold Rdiv. now rewrite Rmult_0_l.
  - rewrite S_INR, <- IH. simpl pow.
    rewrite ln_mult; [| lra | apply pow_lt; lra].
    pose proof ln2_pos. field. lra.
Qed.

Lemma log2_le (x y : R) : 0 < x -> x <= y -> log2 x <= log2 y.
Proof.
  intros Hx Hxy. unfold log2, Rdiv.
  apply Rmult_le_compat_r.
  - left. apply Rinv_0_lt_compat, ln2_pos.
  - destruct Hxy as [Hlt | ->]; [left; now apply ln_increasing | right; reflexivity].
Qed.

Lemma view_of_bounds_spec (minx miny maxx maxy : R) :
  view_of_bounds (minx, miny, maxx, maxy) =
  ((miny + maxy) / 2, (minx + maxx) / 2,
   ViewFitSpec.zoom minx miny maxx maxy).
Proof.
  unfold view_of_bounds, ViewFitSpec.zoom, ViewFitSpec.span.
  rewrite py_max3_Rmax, np_clip_clamp by lra. reflexivity.
Qed.

Lemma clamp_inside (x lo hi : R) :
  lo <= x <= hi -> ViewFitSpec.clamp x lo hi = x.
Proof.
  intros Hx. unfold ViewFitSpec.clamp.
  destruct (Rlt_dec x lo); [lra|]. destruct (Rlt_dec hi x); [lra | reflexivity].
Qed.

Lemma clamp_above (x lo hi : R) :
  lo <= hi -> hi <= x -> ViewFitSpec.clamp x lo hi = hi.
Proof.
  intros Hlh Hx. unfold ViewFitSpec.clamp.
  destruct (Rlt_dec x lo); [lra|]. destruct (Rlt_dec hi x); [reflexivity | lra].
Qed.

Lemma log2_between (x : R) (a b : nat) :
  2 ^ a <= x <= 2 ^ b -> INR a <= log2 x <= INR b.
Proof.
  intros [Ha Hb]. rewrite <- (log2_pow2 a), <- (log2_pow2 b).
  assert (0 < 2 ^ a) by (apply pow_lt; lra).
  split; apply log2_le; lra.
Qed.

(** C1.  On every bounding box the view-fit heuristic returns the midpoint of
    the box as centre and clamp(log2(360 / span), 2, 8) as zoom, where span is
    the larger side of the box, floored at 0.1; the box (-10, -5, 10, 5) gives
    centre (0, 0) and zoom log2(18), and the zero-extent box (5, 5, 5, 5) gives
    zoom 8. *)
Theorem view_fit_matches_spec :
  (forall (G : Type) (HG : Geometry G) (gdf : DataFrame G),
      view_from_bounds gdf =
      option_map (fun b : BBox =>
                    let '(minx, miny, maxx, maxy) := b in
                    ((miny + maxy) / 2, (minx + maxx) / 2,
                     ViewFitSpec.zoom minx miny maxx maxy))
                 (total_bounds gdf))
  /\ view_of_bounds (-10, -5, 10, 5) = (0, 0, log2 18)
  /\ view_of_bounds (5, 5, 5, 5) = (5, 5, 8).
Proof.
  split; [| split].
  - intros G HG gdf. unfold view_from_bounds.
    destruct (total_bounds gdf) as [[[[minx miny] maxx] maxy]|]; simpl; [|reflexivity].
    f_equal. apply view_of_bounds_spec.
  - rewrite view_of_bounds_spec.
    unfold ViewFitSpec.zoom, ViewFitSpec.span.
    replace (10 - -10) with 20 by lra. replace (5 - -5) with 10 by lra.
    rewrite (Rmax_left 20 10) by lra. rewrite Rmax_left by lra.
    replace (360 / 20) with 18 by lra.
    rewrite clamp_inside.
    + repeat f_equal; lra.
    + pose proof (log2_between 18 2 8) as Hb. simpl in Hb. lra.
  - rewrite view_of_bounds_spec.
    unfold ViewFitSpec.zoom, ViewFitSpec.span.
    replace (5 - 5) with 0 by lra.
    rewrite (Rmax_left 0 0) by lra. rewrite Rmax_right by lra.
    replace (360 / (1 / 10)) with 3600 by lra.
    rewrite clamp_above.
    + repeat f_equal; lra.
    + lra.
    + pose proof (log2_between 3600 8 12) as Hb. simpl in Hb. lra.
Qed.

(** C5.  Whatever the bounding box (zero-extent and inverted boxes
    included), the zoom the view-fit heuristic returns lies in [2, 8]. *)
Theorem view_fit_zoom_in_range :
  (forall b : BBox, 2 <= snd (view_of_bounds b) <= 8)
  /\ (forall (G : Type) (HG : Geometry G) (gdf : DataFrame G),
        match view_from_bounds gdf with
        | Some (_, _, zoom) => 2 <= zoom <= 8
        | None => total_bounds gdf = None
        end).
Proof.
  assert (Hb : forall b : BBox, 2 <= snd (view_of_bounds b) <= 8).
  { intros [[[minx miny] maxx] maxy]. unfold view_of_bounds. simpl snd.
    apply np_clip_bounds. lra. }
  split; [exact Hb|].
  intros G HG gdf. unfold view_from_bounds.
  destruct (total_bounds gdf) as [b|]; simpl; [|reflexivity].
  specialize (Hb b). destruct (view_of_bounds b) as [[lat lon] zoom]. exact Hb.
Qed.

(** ** The data loader *)

Lemma mem_string_In (x : string) (l : list string) :
  mem_string x l = true <-> In x l.
Proof.
  unfold mem_string. rewrite existsb_exists. split.
  - intros [y [Hy Heq]]. apply String.eqb_eq in Heq. now subst.
  - intros Hin. exists x. split; [assumption | apply String.eqb_refl].
Qed.

Lemma index_of_Some_In (x : string) (l : list string) (i : nat) :
  index_of x l = Some i -> In x l.
Proof.
  revert i. induction l as [|y l IH]; intros i; simpl; [discriminate|].
  destruct (String.eqb x y) eqn:E.
  - apply String.eqb_eq in E. now left.
  - destruct (index_of x l); simpl; [|discriminate]. intros _. right. eauto.
Qed.

Lemma In_index_of (x : string) (l : list string) :
  In x l -> exists i, index_of x l = Some i.
Proof.
  induction l as [|y l IH]; simpl; [tauto|].
  intros Hin. destruct (String.eqb x y) eqn:E; [eauto|].
  destruct Hin as [-> | Hin]; [rewrite String.eqb_refl in E; discriminate|].
  destruct (IH Hin) as [i ->]. simpl. eauto.
Qed.

Lemma map_fst_combine {A B} (l1 : list A) (l2 : list B) :
  List.length l1 = List.length l2 -> map fst (combine l1 l2) = l1.
Proof.
  revert l2. induction l1 as [|a l1 IH]; intros [|b l2]; simpl; try easy.
  intros Hlen. f_equal. apply IH. lia.
Qed.

Section LoadData.
Context {G : Type} `{Geometry G} {S : Type} `{Generator S}.

Lemma standardise_name_has_name (cs : list string) (df : DataFrame G) (c : string) :
  In c cs -> has_column df c = true ->
  has_column (standardise_name cs df) "name" = true.
Proof.
  induction cs as [|c' cs IH]; simpl; [tauto|].
  intros Hin Hc. destruct (has_column df c') eqn:E.
  - unfold has_column, rename. simpl. apply mem_string_In, in_map_iff.
    exists c'. rewrite String.eqb_refl. split; [reflexivity|].
    now apply mem_string_In.
  - destruct Hin as [-> | Hin]; [congruence | now apply IH].
Qed.

Lemma drop_antarctica_columns (df : DataFrame G) :
  columns (drop_antarctica df) = columns df.
Proof.
  unfold drop_antarctica. now destruct (col_index "name" (columns df)).
Qed.

Lemma drop_antarctica_rows (df : DataFrame G) (r : list (Cell G)) (i : nat) :
  col_index "name" (columns df) = Some i ->
  In r (rows (drop_antarctica df)) ->
  In r (rows df) /\ lower_ne "antarctica" (cell_at i r) = true.
Proof.
  intros Hi. unfold drop_antarctica. rewrite Hi. simpl.
  intros Hin. now apply filter_In in Hin.
Qed.

(** C7.  Whatever table was fetched, no row of the loaded country table
    carries, in its [name] column, a text that lower-cases to "antarctica";
    and the [name] column exists as soon as the fetched table carried any of
    the candidate labels. *)
Theorem antarctica_removed (fetched : DataFrame G) :
  let countries := fst (load_data (S:=S) fetched) in
  (forall r i s,
      In r (rows countries) ->
      col_index "name" (columns countries) = Some i ->
      cell_at i r = CStr s ->
      lower s <> "antarctica")
  /\ (forall c, In c name_candidates -> has_column fetched c = true ->
                has_column countries "name" = true).
Proof.
  unfold load_data; cbn [fst]. split.
  - intros r i s Hin Hi Hcell.
    rewrite drop_antarctica_columns in Hi.
    destruct (drop_antarctica_rows _ _ _ Hi Hin) as [_ Hne].
    rewrite Hcell in Hne. simpl in Hne.
    intros Heq. rewrite Heq in Hne. discriminate.
  - intros c Hin Hc. unfold has_column. rewrite drop_antarctica_columns.
    exact (standardise_name_has_name _ _ _ Hin Hc).
Qed.

Lemma point_rows_ids (ids : list Z) (ll : list (R * R)) :
  List.length ids = List.length ll ->
  map (cell_at 0)
      (map (fun r : Z * (R * R) =>
              let '(i, (la, lo)) := r in
              [CInt i; CFloat la; CFloat lo; CGeom (point lo la)])
           (combine ids ll)) = map (fun i => CInt i) ids.
Proof.
  revert ll. induction ids as [|i ids IH]; intros [|[la lo] ll]; simpl; try easy.
  intros Hlen. f_equal. apply IH. lia.
Qed.

Context `{!UniformContract S}.

Lemma sample_points_rows :
  exists lats lons : list R,
    List.length lats = 600%nat /\ List.length lons = 600%nat
    /\ (forall la, In la lats -> -60 <= la <= 75)
    /\ (forall lo, In lo lons -> -180 <= lo <= 180)
    /\ rows (sample_points (G:=G) (S:=S)) =
       map (fun r => let '(i, (la, lo)) := r in
                     [CInt i; CFloat la; CFloat lo; CGeom (point lo la)])
           (combine (map Z.of_nat (seq 0 600)) (combine lats lons)).
Proof.
  unfold sample_points.
  pose proof (uniform_length (default_rng 42) (-60) 75 600) as Hl1.
  pose proof (uniform_range (default_rng 42) (-60) 75 600) as Hr1.
  destruct (uniform (default_rng 42) (-60) 75 600) as [lats rng1].
  pose proof (uniform_length rng1 (-180) 180 600) as Hl2.
  pose proof (uniform_range rng1 (-180) 180 600) as Hr2.
  destruct (uniform rng1 (-180) 180 600) as [lons rng2].
  simpl fst in *. exists lats, lons. rewrite Hl1.
  repeat split; try assumption; try (apply Hr1; [lra | assumption]);
    try (apply Hr2; [lra | assumption]).
Qed.

Lemma sample_points_length :
  List.length (rows (sample_points (G:=G) (S:=S))) = 600%nat.
Proof.
  destruct sample_points_rows as (lats & lons & Hl1 & Hl2 & _ & _ & ->).
  rewrite length_map, !length_combine, length_map, length_seq, Hl1, Hl2.
  reflexivity.
Qed.

(** C10.  Every sample point has its latitude in [-60, 75], its longitude in
    [-180, 180] and its geometry at (lon, lat); the ids are 0, 1, ..., 599
    in this order. *)
Theorem sample_points_in_range (fetched : DataFrame G) :
  let pts := snd (load_data (S:=S) fetched) in
  (forall r, In r (rows pts) ->
             exists i la lo,
               r = [CInt i; CFloat la; CFloat lo; CGeom (point lo la)]
               /\ -60 <= la <= 75 /\ -180 <= lo <= 180)
  /\ getitem pts "id" = Ok (map (fun n => CInt (Z.of_nat n)) (seq 0 600)).
Proof.
  simpl.
  destruct sample_points_rows as (lats & lons & Hl1 & Hl2 & Hr1 & Hr2 & Hrows).
  split.
  - intros r Hin. rewrite Hrows in Hin.
    apply in_map_iff in Hin. destruct Hin as [[i [la lo]] [<- Hin]].
    apply in_combine_r in Hin.
    exists i, la, lo. split; [reflexivity|].
    split; [apply Hr1; eapply in_combine_l; eauto
           | apply Hr2; eapply in_combine_r; eauto].
  - unfold getitem. replace (columns sample_points) with ["id"; "lat"; "lon"; "geometry"].
    + simpl. rewrite Hrows, point_rows_ids; [now rewrite map_map|].
      rewrite length_combine, length_map, length_seq, Hl1, Hl2. reflexivity.
    + unfold sample_points.
      destruct (uniform (default_rng 42) (-60) 75 600) as [lats' rng1].
      now destruct (uniform rng1 (-180) 180 600).
Qed.
End LoadData.

(** ** Runs of the script *)

Section Runs.
Context {G : Type} `{Geometry G} {S : Type} `{Generator S}.
Variable repr_float : R -> string.

Lemma snd_bind {A B} (m : M (G:=G) A) (k : A -> M (G:=G) B) :
  snd (bind m k) = res_bind (snd m) (fun a => snd (k a)).
Proof. unfold bind. now destruct (snd m). Qed.

Lemma fst_bind {A B} (m : M (G:=G) A) (k : A -> M (G:=G) B) :
  fst (bind m k) = fst m ++ match snd m with
                            | Ok a => fst (k a)
                            | _ => []
                            end.
Proof. unfold bind. destruct (snd m); simpl; now rewrite ?app_nil_r. Qed.

Lemma snd_run {A} (m : M (G:=G) A) : snd (run m) = snd m.
Proof. unfold run. destruct m as [t [a| |e]]; reflexivity. Qed.

Lemma snd_append_if {A} (b : bool) (l : list A) (m : M (G:=G) A) :
  snd (append_if b l m) =
  if b then res_map (fun x => l ++ [x]) (snd m) else Ok l.
Proof. unfold append_if. destruct b; [|reflexivity]. now rewrite snd_bind. Qed.

Lemma build_layers_ok (inp : Inputs) (c s b i o : DataFrame G) :
  exists l, snd (build_layers inp c s b i o) = Ok l.
Proof.
  unfold build_layers, append_if.
  destruct (show_all_countries inp), (0 <? buffer_km inp)%Z,
    (0 <? List.length (rows i))%nat,
    (show_points_outside inp && (0 <? List.length (rows o))%nat);
    cbn; eauto.
Qed.

Lemma buffering_outcome (sel0 : DataFrame G) (km1 km2 : Z) :
  res_map (fun _ => tt) (snd (buffering sel0 km1)) =
  res_map (fun _ => tt) (snd (buffering sel0 km2)).
Proof.
  unfold buffering. rewrite !snd_bind. cbn [call snd].
  destruct (map_geometry (to_crs 4326 3857) sel0) as [s3857| |e];
    cbn [res_bind res_map]; try reflexivity.
  rewrite !snd_bind. cbn [call snd].
  destruct (geometry s3857) as [gs| |e]; cbn [res_bind res_map]; reflexivity.
Qed.

Ltac peel :=
  repeat (rewrite !snd_bind; cbn [emit lift call ret snd res_bind res_map]).

Ltac split_on r :=
  destruct r eqn:?; cbn [res_bind res_map]; [peel | reflexivity | reflexivity].

Lemma joined_ignores_buffer (fetched : DataFrame G) (inp : Inputs) (d1 d2 : Z) :
  res_map joined (snd (app repr_float fetched (with_buffer inp d1))) =
  res_map joined (snd (app repr_float fetched (with_buffer inp d2))).
Proof.
  unfold app.
  destruct (load_data fetched) as [countries pts].
  cbn [country_name buffer_km with_buffer]. peel.
  split_on (snd (sidebar countries)).
  split_on (snd (selection countries (country_name inp))).
  pose proof (buffering_outcome a0 d1 d2) as Hb.
  destruct (snd (buffering a0 d1)) as [b1| |e1], (snd (buffering a0 d2)) as [b2| |e2];
    cbn [res_bind res_map] in Hb |- *; try discriminate Hb;
    [peel | reflexivity | injection Hb as ->; reflexivity].
  split_on (snd (membership pts a0)).
  split_on (where_col a1 "inside" is_true).
  split_on (take_columns a2 ["lat"; "lon"; "id"]).
  split_on (where_col a1 "inside" is_not_true).
  split_on (take_columns a4 ["lat"; "lon"; "id"]).
  split_on (geometry a0).
  split_on (first_representative a6).
  split_on (getitem a1 "inside").
  destruct (build_layers_ok (with_buffer inp d1) countries a0 b1 a3 a5) as [l1 ->].
  destruct (build_layers_ok (with_buffer inp d2) countries a0 b2 a3 a5) as [l2 ->].
  cbn [res_bind]. peel.
  destruct (snd (export repr_float a1)); reflexivity.
Qed.

Lemma res_bind_res_map {A B C} (r : Res A) (f : A -> B) (g : B -> Res C) :
  res_bind (res_map f r) g = res_bind r (fun a => g (f a)).
Proof. now destruct r. Qed.

(** C2.  Moving the buffer slider, all else equal, changes neither the
    Membership Table (so no [inside] flag of any sample point) nor the count
    of inside points: the join reads the unbuffered selection only. *)
Theorem join_ignores_buffer (fetched : DataFrame G) (inp : Inputs) (d1 d2 : Z) :
  res_map joined (snd (main repr_float fetched (with_buffer inp d1))) =
  res_map joined (snd (main repr_float fetched (with_buffer inp d2)))
  /\ res_bind (snd (main repr_float fetched (with_buffer inp d1))) points_inside =
     res_bind (snd (main repr_float fetched (with_buffer inp d2))) points_inside.
Proof.
  unfold main. rewrite !snd_run.
  pose proof (joined_ignores_buffer fetched inp d1 d2) as Hj.
  split; [exact Hj|].
  unfold points_inside.
  rewrite <- !(res_bind_res_map _ joined
                 (fun j => res_map count_true (getitem j "inside"))).
  now rewrite Hj.
Qed.

(** *** The empty selection *)

Lemma cell_strings_cons (c : Cell G) (cs : list (Cell G)) (names : list string) :
  cell_strings (c :: cs) = Some names ->
  exists s rest, c = CStr s /\ names = s :: rest /\ cell_strings cs = Some rest.
Proof.
  unfold cell_strings. simpl. fold (cell_strings cs).
  destruct c; try discriminate.
  destruct (cell_strings cs) as [rest|]; [|discriminate].
  intros [= <-]. eauto.
Qed.

Lemma no_name_no_row (x : string) (i : nat) (rs : list (list (Cell G)))
      (names : list string) :
  cell_strings (map (cell_at i) rs) = Some names ->
  ~ In x names ->
  filter (fun r => str_eq x (cell_at i r)) rs = [].
Proof.
  revert names. induction rs as [|r rs IH]; intros names Hs Hx; [reflexivity|].
  simpl in Hs. apply cell_strings_cons in Hs.
  destruct Hs as (s & rest & Hc & -> & Hrest).
  simpl. rewrite Hc. simpl.
  destruct (String.eqb s x) eqn:E.
  - apply String.eqb_eq in E. subst. exfalso. apply Hx. now left.
  - apply (IH rest); [assumption|]. intros Hin. apply Hx. now right.
Qed.

(** C6.  When the requested name is the name of no region of the
    normalized collection, the selection is empty and the run stops at
    line 72: the page holds the header and the sidebar only, no library
    call of the rendering part was made, nothing is drawn or offered for
    download, and no error is shown. *)
Theorem no_match_halts (fetched : DataFrame G) (inp : Inputs)
        (i : nat) (names : list string) :
  let countries := fst (load_data (S:=S) fetched) in
  col_index "name" (columns countries) = Some i ->
  cell_strings (map (cell_at i) (rows countries)) = Some names ->
  ~ In (country_name inp) names ->
  where_col countries "name" (str_eq (country_name inp)) =
    Ok {| columns := columns countries; rows := [] |}
  /\ main repr_float fetched inp =
     (page_before_selection (sorted (unique names [])), Stop).
Proof.
  intros countries Hi Hnames Hno.
  assert (Hsel : where_col countries "name" (str_eq (country_name inp)) =
                 Ok {| columns := columns countries; rows := [] |}).
  { unfold where_col. rewrite Hi. unfold filter_rows.
    now rewrite (no_name_no_row _ _ _ _ Hnames Hno). }
  split; [exact Hsel|].
  unfold main, app.
  change (load_data fetched) with (countries, sample_points (G:=G) (S:=S)).
  unfold sidebar, selection, getitem, options_of.
  rewrite Hsel, Hi. cbn [bind emit lift fst snd app].
  rewrite Hnames. reflexivity.
Qed.
End Runs.

(** ** The membership join *)

Lemma flat_map_length_const {A B} (f : A -> list B) (l : list A) (k : nat) :
  (forall x, In x l -> List.length (f x) = k) ->
  List.length (flat_map f l) = (k * List.length l)%nat.
Proof.
  induction l as [|x l IH]; simpl; intros Hk; [lia|].
  rewrite length_app, IH, (Hk x) by auto. lia.
Qed.

Lemma flat_map_length_ge {A B} (f : A -> list B) (l : list A) :
  (forall x, In x l -> (1 <= List.length (f x))%nat) ->
  (List.length l <= List.length (flat_map f l))%nat.
Proof.
  induction l as [|x l IH]; simpl; intros Hk; [lia|].
  rewrite length_app. pose proof (Hk x (or_introl eq_refl)) as Hx.
  assert (List.length l <= List.length (flat_map f l))%nat by auto. lia.
Qed.

Lemma map_flat_map_comm {A B C} (g : B -> C) (f : A -> list B) (l : list A) :
  map g (flat_map f l) = flat_map (fun x => map g (f x)) l.
Proof.
  induction l as [|x l IH]; simpl; [reflexivity|].
  now rewrite map_app, IH.
Qed.

Lemma filter_enumerate_length {A} (P : A -> bool) (l : list A) (i : nat) :
  List.length (filter (fun jr => P (snd jr)) (enumerate i l)) =
  List.length (filter P l).
Proof.
  revert i. induction l as [|x l IH]; intros i; simpl; [reflexivity|].
  destruct (P x); simpl; now rewrite IH.
Qed.

Lemma filter_map_length {A B} (P : B -> bool) (f : A -> B) (l : list A) :
  List.length (filter P (map f l)) = List.length (filter (fun x => P (f x)) l).
Proof.
  induction l as [|x l IH]; simpl; [reflexivity|].
  destruct (P (f x)); simpl; now rewrite IH.
Qed.

Section Join.
Context {G : Type} `{Geometry G} {S : Type} `{Generator S}.
Variable repr_float : R -> string.

Lemma take_name_geometry (df right : DataFrame G) :
  take_columns df ["name"; "geometry"] = Ok right ->
  exists ni gi,
    col_index "name" (columns df) = Some ni
    /\ col_index "geometry" (columns df) = Some gi
    /\ right = {| columns := ["name"; "geometry"];
                  rows := map (fun r => [cell_at ni r; cell_at gi r]) (rows df) |}.
Proof.
  unfold take_columns. simpl.
  destruct (col_index "name" (columns df)) as [ni|]; [|discriminate].
  destruct (col_index "geometry" (columns df)) as [gi|]; [|discriminate].
  simpl. intros [= <-]. eauto.
Qed.

(** The rows one left row contributes to the join, flag included. *)
Lemma membership_rows (pts sel0 j : DataFrame G) :
  snd (membership pts sel0) = Ok j ->
  columns j = columns pts ++ ["index_right"; "name"; "inside"]
  /\ exists block : list (Cell G) -> list (list (Cell G)),
      rows j = flat_map block (rows pts)
      /\ forall l,
          List.length (block l) =
            Nat.max 1 (pieces_around sel0 (geometry_cell pts l))
          /\ forall row, In row (block l) -> exists rest, row = l ++ rest.
Proof.
  unfold membership. rewrite !snd_bind. cbn [lift call snd].
  destruct (take_columns sel0 ["name"; "geometry"]) as [right| |e] eqn:Et;
    cbn [res_bind]; try discriminate.
  apply take_name_geometry in Et. destruct Et as (ni & gi & Hni & Hgi & ->).
  rewrite snd_bind. cbn [call snd].
  unfold sjoin. cbn [columns rows]. change (col_index "geometry" ["name"; "geometry"])
    with (Some 1%nat).
  destruct (col_index "geometry" (columns pts)) as [gl|] eqn:Egl;
    cbn [res_bind]; [|discriminate].
  cbn [remove_nth lift snd]. unfold add_column. cbn [columns rows].
  destruct (In_index_of "name" (columns pts ++ ["index_right"; "name"])) as [k Hk].
  { apply in_or_app. right. simpl. auto. }
  unfold col_index in *. rewrite Hk. intros [= <-]. cbn [columns rows].
  split; [now rewrite <- app_assoc|].
  rewrite map_flat_map_comm. eexists. split; [reflexivity|].
  intros l. cbv beta.
  unfold pieces_around, geometry_cell, col_index. rewrite Egl, Hgi.
  rewrite length_map.
  assert (Hlen : List.length
                   (matches gl 1 (map (fun r => [cell_at ni r; cell_at gi r])
                                      (rows sel0)) l) =
                 List.length (filter (fun r => cell_within (cell_at gl l)
                                                           (cell_at gi r))
                                     (rows sel0))).
  { unfold matches.
    rewrite (filter_enumerate_length
               (fun r => cell_within (cell_at gl l) (cell_at 1 r))).
    now rewrite filter_map_length. }
  rewrite <- Hlen.
  destruct (matches gl 1 _ l) as [|m ms] eqn:Em.
  - split; [reflexivity|].
    intros row Hin. simpl in Hin. destruct Hin as [<- | []].
    rewrite <- app_assoc. eauto.
  - split; [simpl; rewrite length_map; lia|].
    intros row Hin. apply in_map_iff in Hin. destruct Hin as [r' [<- Hin]].
    destruct Hin as [<- | Hin];
      [|apply in_map_iff in Hin; destruct Hin as [jr [<- _]]];
      rewrite <- app_assoc; eauto.
Qed.

Lemma in_fst_bind {A B} (m : M (G:=G) A) (k : A -> M (G:=G) B) (a : A)
      (e : Event) :
  snd m = Ok a -> In e (fst (k a)) -> In e (fst (bind m k)).
Proof.
  intros Hm Hin. rewrite fst_bind, Hm. apply in_or_app. now right.
Qed.

Lemma in_fst_bind_l {A B} (m : M (G:=G) A) (k : A -> M (G:=G) B) (e : Event) :
  In e (fst m) -> In e (fst (bind m k)).
Proof. intros Hin. rewrite fst_bind. apply in_or_app. now left. Qed.

Ltac peel :=
  repeat (rewrite !snd_bind; cbn [emit lift call ret snd res_bind res_map]).

Ltac split_on r :=
  destruct r eqn:?; cbn [res_bind res_map]; try (intros ?; discriminate); peel.

Ltac walk :=
  first [ apply in_fst_bind_l; simpl; now left
        | eapply in_fst_bind;
          [cbn [emit lift call snd]; first [eassumption | reflexivity] | walk] ].

(** What a completed run has gone through. *)
Lemma app_inv (fetched : DataFrame G) (inp : Inputs) (r : Render) :
  snd (app repr_float fetched inp) = Ok r ->
  snd (selection (fst (load_data (S:=S) fetched)) (country_name inp)) = Ok (sel r)
  /\ snd (membership (snd (load_data (S:=S) fetched)) (sel r)) = Ok (joined r)
  /\ snd (buffering (sel r) (buffer_km inp)) = Ok (buffered r)
  /\ view r = view_from_bounds (sel r)
  /\ snd (export repr_float (joined r)) = Ok (csv r)
  /\ In (DownloadButton "Download joined points (CSV)" (csv r)
                        "joined_points.csv" "text/csv")
        (fst (app repr_float fetched inp)).
Proof.
  unfold app, load_data. cbn [fst snd].
  set (countries := drop_antarctica _). set (pts := sample_points).
  peel.
  split_on (snd (sidebar countries)).
  split_on (snd (selection countries (country_name inp))).
  split_on (snd (buffering a0 (buffer_km inp))).
  split_on (snd (membership pts a0)).
  split_on (where_col a2 "inside" is_true).
  split_on (take_columns a3 ["lat"; "lon"; "id"]).
  split_on (where_col a2 "inside" is_not_true).
  split_on (take_columns a5 ["lat"; "lon"; "id"]).
  split_on (geometry a0).
  split_on (first_representative a7).
  split_on (getitem a2 "inside").
  destruct (build_layers_ok inp countries a0 a1 a4 a6) as [ls Hls].
  rewrite Hls. cbn [res_bind]. peel.
  split_on (snd (export repr_float a2)).
  intros [= <-]. cbn [sel joined buffered view csv].
  repeat (split; [first [assumption | reflexivity]|]).
  walk.
Qed.
End Join.

(** ** The selection pipeline *)

Lemma index_of_same_position (x y : string) (l : list string) (i : nat) :
  index_of x l = Some i -> index_of y l = Some i -> x = y.
Proof.
  revert i. induction l as [|z l IH]; intros i; simpl; [discriminate|].
  destruct (String.eqb x z) eqn:Ex, (String.eqb y z) eqn:Ey.
  - apply String.eqb_eq in Ex, Ey. congruence.
  - intros [= <-]. destruct (index_of y l); discriminate.
  - intros Hx [= <-]. destruct (index_of x l); discriminate.
  - destruct (index_of x l) as [a|], (index_of y l) as [b|]; simpl; try discriminate.
    intros [= <-] [= ->]. now apply (IH a).
Qed.

Section SetNth.
Context {A : Type}.

Lemma set_nth_length (i : nat) (v : A) (l : list A) :
  List.length (set_nth i v l) = List.length l.
Proof.
  revert i. induction l as [|x l IH]; intros [|i]; simpl; auto.
Qed.

Lemma nth_set_nth_eq (i : nat) (v d : A) (l : list A) :
  (i < List.length l)%nat -> nth i (set_nth i v l) d = v.
Proof.
  revert i. induction l as [|x l IH]; intros [|i]; simpl; try lia; auto.
  intros Hlt. apply IH. lia.
Qed.

Lemma nth_set_nth_neq (i j : nat) (v d : A) (l : list A) :
  i <> j -> nth j (set_nth i v l) d = nth j l d.
Proof.
  revert i j. induction l as [|x l IH]; intros [|i] [|j]; simpl; try easy.
  intros Hne. apply IH. lia.
Qed.

Lemma set_nth_same (i : nat) (v d : A) (l : list A) :
  nth i l d = v -> set_nth i v l = l.
Proof.
  revert i. induction l as [|x l IH]; intros [|i]; simpl; try easy.
  - now intros ->.
  - intros Hn. f_equal. now apply IH.
Qed.
End SetNth.

Section Selection.
Context {G : Type} `{Geometry G}.

Lemma cell_geom_in_range (i : nat) (r : list (Cell G)) (g : G) :
  cell_at i r = CGeom g -> (i < List.length r)%nat.
Proof.
  intros Hc. destruct (Nat.lt_ge_cases i (List.length r)) as [|Hge]; [assumption|].
  unfold cell_at in Hc. rewrite nth_overflow in Hc by assumption. discriminate.
Qed.

Lemma selection_value (countries : DataFrame G) (name : string) :
  snd (selection countries name) =
  match col_index "name" (columns countries),
        col_index "geometry" (columns countries) with
  | Some ni, Some gi =>
      match filter (keep_row name ni) (rows countries) with
      | [] => Stop
      | kept =>
          Ok {| columns := columns countries;
                rows := flat_map (explode_row gi) (map (repair_row gi) kept) |}
      end
  | Some ni, None =>
      match filter (keep_row name ni) (rows countries) with
      | [] => Stop
      | _ => Raise AttributeError
      end
  | None, _ => Raise (KeyError "name")
  end.
Proof.
  unfold selection. rewrite snd_bind. cbn [lift snd]. unfold where_col.
  destruct (col_index "name" (columns countries)) as [ni|];
    cbn [res_bind]; [|reflexivity].
  unfold filter_rows. cbn [rows columns]. fold (keep_row (G:=G) name ni).
  destruct (filter (keep_row name ni) (rows countries)) as [|r0 kept] eqn:Ek.
  - now destruct (col_index "geometry" (columns countries)).
  - rewrite snd_bind. cbn [call snd]. unfold map_geometry, explode.
    cbn [columns rows].
    destruct (col_index "geometry" (columns countries)) as [gi|] eqn:Eg;
      cbn [res_bind columns rows]; rewrite ?Eg; reflexivity.
Qed.

Lemma settled_rows (name : string) (ni gi : nat) (rs : list (list (Cell G))) :
  (forall o, In o rs ->
             keep_row name ni o = true
             /\ exists p, cell_at gi o = CGeom p /\ buffer p 0 = p /\ parts p = [p]) ->
  filter (keep_row name ni) rs = rs
  /\ map (repair_row gi) rs = rs
  /\ flat_map (explode_row gi) rs = rs.
Proof.
  induction rs as [|o rs IH]; intros Hall; [easy|].
  destruct (Hall o (or_introl eq_refl)) as (Hk & p & Hc & Hb & Hp).
  destruct IH as (IHf & IHm & IHe); [intros; apply Hall; now right|].
  assert (Hsame : set_nth gi (CGeom p) o = o) by now apply (set_nth_same _ _ CNaN).
  repeat split; simpl.
  - now rewrite Hk, IHf.
  - rewrite IHm. unfold repair_row. now rewrite Hc, Hb, Hsame.
  - rewrite IHe. unfold explode_row. rewrite Hc, Hp. simpl. now rewrite Hsame.
Qed.

Context `{!RepairedParts G}.

Lemma output_rows_settled (name : string) (ni gi : nat)
      (kept : list (list (Cell G))) :
  ni <> gi ->
  (forall r, In r kept -> keep_row name ni r = true) ->
  forall o, In o (flat_map (explode_row gi) (map (repair_row gi) kept)) ->
            keep_row name ni o = true
            /\ exists p, cell_at gi o = CGeom p /\ buffer p 0 = p /\ parts p = [p].
Proof.
  intros Hne Hkept o Hin.
  apply in_flat_map in Hin. destruct Hin as (r1 & Hr1 & Ho).
  apply in_map_iff in Hr1. destruct Hr1 as (r0 & <- & Hr0).
  specialize (Hkept r0 Hr0).
  unfold explode_row, repair_row in Ho.
  destruct (cell_at gi r0) as [ | | | | |g] eqn:Ec; rewrite ?Ec in Ho; try easy.
  pose proof (cell_geom_in_range _ _ _ Ec) as Hlt.
  unfold cell_at in Ho. rewrite nth_set_nth_eq in Ho by assumption.
  apply in_map_iff in Ho. destruct Ho as (p & <- & Hp).
  split.
  - unfold keep_row, cell_at in *.
    rewrite !nth_set_nth_neq by auto. assumption.
  - exists p. unfold cell_at.
    rewrite nth_set_nth_eq by (now rewrite set_nth_length).
    split; [reflexivity|].
    split; [eapply part_repaired | eapply part_single]; eassumption.
Qed.

(** When the geometry library leaves every part it has produced unchanged
    ([RepairedParts]), the pipeline fed its own output under the same name
    returns that output, provided the output has a row, and stops when it has
    none. *)
Lemma selection_fixed_point (countries out : DataFrame G) (name : string) :
  snd (selection countries name) = Ok out ->
  snd (selection out name) = match rows out with
                             | [] => Stop
                             | _ :: _ => Ok out
                             end.
Proof.
  rewrite selection_value.
  destruct (col_index "name" (columns countries)) as [ni|] eqn:Eni; [|discriminate].
  destruct (col_index "geometry" (columns countries)) as [gi|] eqn:Egi.
  2:{ destruct (filter (keep_row name ni) (rows countries)); discriminate. }
  assert (Hne : ni <> gi).
  { intros ->. pose proof (index_of_same_position _ _ _ _ Eni Egi). discriminate. }
  destruct (filter (keep_row name ni) (rows countries)) as [|r0 kept] eqn:Ek;
    [discriminate|].
  assert (Hkept : forall r, In r (r0 :: kept) -> keep_row name ni r = true).
  { intros r Hr. rewrite <- Ek in Hr. now apply filter_In in Hr. }
  clear Ek. remember (r0 :: kept) as kk eqn:Ekk. clear Ekk.
  intros [= <-]. rewrite selection_value. cbn [columns rows]. rewrite Eni, Egi.
  remember (flat_map (explode_row gi) (map (repair_row gi) kk)) as rs eqn:Ers.
  destruct (settled_rows name ni gi rs) as (Hf & Hm & He).
  { subst rs. now apply output_rows_settled. }
  rewrite Hf. destruct rs as [|o rs']; [reflexivity|].
  now rewrite Hm, He.
Qed.
End Selection.

(** ** The Membership Table and its export *)

Lemma string_append_empty (s : string) : (s ++ "")%string = s.
Proof. induction s as [|a s IH]; simpl; [reflexivity | now rewrite IH]. Qed.

Lemma concat_empty_cons (x : string) (l : list string) :
  String.concat "" (x :: l) = (x ++ String.concat "" l)%string.
Proof.
  destruct l as [|y l]; simpl; [now rewrite string_append_empty | reflexivity].
Qed.

Section Table.
Context {G : Type} `{Geometry G} {S : Type} `{Generator S}.
Variable repr_float : R -> string.

Lemma run_ok {A} (m : M (G:=G) A) (a : A) : snd m = Ok a -> run m = m.
Proof. unfold run. now intros ->. Qed.

Lemma sample_points_columns :
  columns (sample_points (G:=G) (S:=S)) = ["id"; "lat"; "lon"; "geometry"].
Proof.
  unfold sample_points.
  destruct (uniform (default_rng 42) (-60) 75 600) as [lats rng1].
  now destruct (uniform rng1 (-180) 180 600).
Qed.

Lemma export_of_run (fetched : DataFrame G) (inp : Inputs) (r : Render) :
  snd (main (S:=S) repr_float fetched inp) = Ok r ->
  exists table body,
    export_table (joined r) = Ok table
    /\ columns table = ["id"; "lat"; "lon"; "index_right"; "name"; "inside"]
    /\ csv r = encode_utf8 (to_csv repr_float table)
    /\ csv r = ("id,lat,lon,index_right,name,inside" ++ newline ++ body)%string
    /\ In (DownloadButton "Download joined points (CSV)" (csv r)
                          "joined_points.csv" "text/csv")
          (fst (main (S:=S) repr_float fetched inp)).
Proof.
  unfold main. rewrite snd_run. intros Hr. rewrite (run_ok _ _ Hr).
  destruct (app_inv _ _ _ _ Hr) as (_ & Hj & _ & _ & He & Hd).
  apply membership_rows in Hj. destruct Hj as [Hcols _].
  cbn [load_data snd] in Hcols. rewrite sample_points_columns in Hcols.
  simpl in Hcols.
  unfold export in He. rewrite snd_bind in He. cbn [lift call snd] in He.
  unfold export_table in *. unfold drop_column in *. rewrite Hcols in *.
  cbn [col_index index_of String.eqb Ascii.eqb Bool.eqb option_map res_bind
       remove_nth] in *.
  injection He as He.
  eexists. eexists. split; [reflexivity|].
  split; [reflexivity|]. split; [now rewrite He|].
  split; [|exact Hd].
  rewrite <- He. unfold encode_utf8, to_csv. cbn [columns rows].
  rewrite concat_empty_cons. reflexivity.
Qed.

(** C8 (as amended).  A completed run offers, under the file name
    "joined_points.csv" and the type text/csv, the UTF-8 text of the table
    with the columns id, lat, lon, index_right, name, inside, in this
    order; the text starts with the header row naming them. *)
Theorem csv_export_columns (fetched : DataFrame G) (inp : Inputs) (r : Render) :
  snd (main (S:=S) repr_float fetched inp) = Ok r ->
  exists table body,
    export_table (joined r) = Ok table
    /\ columns table = ["id"; "lat"; "lon"; "index_right"; "name"; "inside"]
    /\ csv r = encode_utf8 (to_csv repr_float table)
    /\ csv r = ("id,lat,lon,index_right,name,inside" ++ newline ++ body)%string
    /\ In (DownloadButton "Download joined points (CSV)" (csv r)
                          "joined_points.csv" "text/csv")
          (fst (main (S:=S) repr_float fetched inp)).
Proof. exact (export_of_run fetched inp r). Qed.

Context `{!UniformContract S}.

Lemma blocks_of_run (fetched : DataFrame G) (inp : Inputs) (r : Render) :
  snd (main (S:=S) repr_float fetched inp) = Ok r ->
  let pts := snd (load_data (S:=S) fetched) in
  (exists block : list (Cell G) -> list (list (Cell G)),
      rows (joined r) = flat_map block (rows pts)
      /\ forall l,
          List.length (block l) =
            Nat.max 1 (pieces_around (sel r) (geometry_cell pts l))
          /\ forall row, In row (block l) -> exists rest, row = l ++ rest)
  /\ (600 <= List.length (rows (joined r)))%nat
  /\ ((forall l, In l (rows pts) ->
                 (pieces_around (sel r) (geometry_cell pts l) <= 1)%nat) ->
      List.length (rows (joined r)) = 600%nat).
Proof.
  intros Hr pts. unfold main in Hr. rewrite snd_run in Hr.
  destruct (app_inv _ _ _ _ Hr) as (_ & Hj & _).
  apply membership_rows in Hj. destruct Hj as [_ (block & Hrows & Hblock)].
  fold pts in Hrows, Hblock.
  assert (Hn : List.length (rows pts) = 600%nat)
    by apply sample_points_length.
  split; [exists block; split; assumption|].
  rewrite Hrows. split.
  - rewrite <- Hn. apply flat_map_length_ge.
    intros l _. destruct (Hblock l) as [-> _]. lia.
  - intros Hone. rewrite (flat_map_length_const block (rows pts) 1); [lia|].
    intros l Hl. destruct (Hblock l) as [-> _]. specialize (Hone l Hl). lia.
Qed.
End Table.

(** ** Runs that complete *)

Section Completion.
Context {G : Type} `{Geometry G} {S : Type} `{Generator S}.
Variable repr_float : R -> string.

Lemma explode_row_cells (gi : nat) (r o : list (Cell G)) :
  In o (explode_row gi r) -> exists p, cell_at gi o = CGeom p.
Proof.
  unfold explode_row. destruct (cell_at gi r) as [ | | | | |g] eqn:Ec; try easy.
  intros Hin. apply in_map_iff in Hin. destruct Hin as (p & <- & _).
  exists p. unfold cell_at. apply nth_set_nth_eq.
  eapply cell_geom_in_range; eassumption.
Qed.

Lemma selection_shape (countries s0 : DataFrame G) (name : string) :
  snd (selection countries name) = Ok s0 ->
  exists ni gi,
    col_index "name" (columns s0) = Some ni
    /\ col_index "geometry" (columns s0) = Some gi
    /\ forall o, In o (rows s0) -> exists p, cell_at gi o = CGeom p.
Proof.
  rewrite selection_value.
  destruct (col_index "name" (columns countries)) as [ni|] eqn:Eni; [|discriminate].
  destruct (col_index "geometry" (columns countries)) as [gi|] eqn:Egi.
  2:{ destruct (filter (keep_row name ni) (rows countries)); discriminate. }
  destruct (filter (keep_row name ni) (rows countries)) as [|r0 kept]; [discriminate|].
  remember (r0 :: kept) as kk. intros [= <-]. cbn [columns rows].
  exists ni, gi. repeat split; try assumption.
  intros o Hin. apply in_flat_map in Hin. destruct Hin as (r1 & _ & Ho).
  eapply explode_row_cells; eassumption.
Qed.

Lemma buffering_ok (s0 : DataFrame G) (km : Z) (gi : nat) :
  col_index "geometry" (columns s0) = Some gi ->
  exists b, snd (buffering s0 km) = Ok b.
Proof.
  intros Hgi. unfold buffering. rewrite snd_bind. cbn [call snd].
  unfold map_geometry at 1. rewrite Hgi. cbn [res_bind].
  rewrite snd_bind. cbn [call snd]. unfold geometry. cbn [columns].
  rewrite Hgi. cbn [res_map res_bind snd].
  unfold map_geometry. cbn [columns].
  change (col_index "geometry" ["geometry"]) with (Some 0%nat). eauto.
Qed.

Lemma membership_ok (pts s0 : DataFrame G) (gl ni gi : nat) :
  col_index "geometry" (columns pts) = Some gl ->
  col_index "name" (columns s0) = Some ni ->
  col_index "geometry" (columns s0) = Some gi ->
  exists j, snd (membership pts s0) = Ok j.
Proof.
  intros Hgl Hni Hgi. unfold membership. rewrite snd_bind. cbn [lift snd].
  unfold take_columns. cbn [indices]. rewrite Hni, Hgi.
  cbn [res_map res_bind]. rewrite snd_bind. cbn [call snd].
  unfold sjoin. cbn [columns rows]. rewrite Hgl.
  change (col_index "geometry" ["name"; "geometry"]) with (Some 1%nat).
  cbn [res_bind lift snd remove_nth]. unfold add_column. cbn [columns rows].
  destruct (In_index_of "name" (columns pts ++ ["index_right"; "name"])) as [k Hk].
  { apply in_or_app. right. simpl. auto. }
  unfold col_index. rewrite Hk. eauto.
Qed.

Ltac peel :=
  repeat (rewrite !snd_bind; cbn [emit lift call ret snd res_bind res_map]).

Ltac next H := rewrite H; cbn [res_bind]; peel.

(** A run completes as soon as the sidebar could be drawn and the selection
    has a row. *)
Lemma app_completes (fetched : DataFrame G) (inp : Inputs) (s0 : DataFrame G) :
  let countries := fst (load_data (S:=S) fetched) in
  snd (sidebar countries) = Ok tt ->
  snd (selection countries (country_name inp)) = Ok s0 ->
  rows s0 <> [] ->
  exists r, snd (main (S:=S) repr_float fetched inp) = Ok r /\ sel r = s0.
Proof.
  intros countries Hside Hsel Hrows.
  unfold main. rewrite snd_run. unfold app.
  change (load_data fetched) with (countries, sample_points (G:=G) (S:=S)).
  cbv iota. set (pts := sample_points).
  destruct (selection_shape _ _ _ Hsel) as (ni & gi & Hni & Hgi & Hcells).
  destruct (buffering_ok s0 (buffer_km inp) gi Hgi) as [b Hb].
  destruct (membership_ok pts s0 3 ni gi) as [j Hj]; try assumption.
  { subst pts. now rewrite sample_points_columns. }
  assert (Hc : columns j = ["id"; "lat"; "lon"; "geometry"; "index_right";
                            "name"; "inside"]).
  { destruct (membership_rows _ _ _ Hj) as [-> _].
    subst pts. now rewrite sample_points_columns. }
  assert (Hw : forall t, where_col j "inside" t = Ok (filter_rows j 6 t)).
  { intros t. unfold where_col. now rewrite Hc. }
  assert (Ht : forall t, exists d,
               take_columns (filter_rows j 6 t) ["lat"; "lon"; "id"] = Ok d).
  { intros t. unfold take_columns, filter_rows. cbn [columns].
    rewrite Hc. simpl. eauto. }
  destruct (Ht is_true) as [ins Hins]. destruct (Ht is_not_true) as [outs Houts].
  assert (Hg : geometry s0 = Ok (map (cell_at gi) (rows s0))).
  { unfold geometry. now rewrite Hgi. }
  assert (Hrep : exists p, first_representative (map (cell_at gi) (rows s0)) = Ok p).
  { destruct (rows s0) as [|o rest]; [now elim Hrows|].
    destruct (Hcells o (or_introl eq_refl)) as [p Hp].
    simpl. rewrite Hp. eauto. }
  destruct Hrep as [rep Hrep].
  assert (Hi : getitem j "inside" = Ok (map (cell_at 6) (rows j))).
  { unfold getitem. now rewrite Hc. }
  destruct (build_layers_ok inp countries s0 b ins outs) as [ls Hls].
  assert (He : exists text, snd (export repr_float j) = Ok text).
  { unfold export, export_table, drop_column. rewrite snd_bind. cbn [lift snd].
    rewrite Hc. simpl. eauto. }
  destruct He as [text He].
  peel. next Hside. next Hsel. next Hb. next Hj.
  next Hw. next Hins. next Hw. next Houts. next Hg. next Hrep. next Hi.
  next Hls. next He.
  eexists. split; reflexivity.
Qed.
End Completion.

(** ** The script on concrete tables *)

Section DemoRuns.
Import Demo.

Lemma Rltb_true (a b : R) : a < b -> Rltb a b = true.
Proof. intros Hab. unfold Rltb. destruct (Rlt_dec a b); [reflexivity | lra]. Qed.

Lemma lcg_fraction (s : Z) : 0 <= IZR (lcg s) / 65537 <= 1.
Proof.
  unfold lcg.
  pose proof (Z.mod_pos_bound (s * 75 + 74) 65537 eq_refl) as [Hlo Hhi].
  apply IZR_le in Hlo. apply IZR_lt in Hhi.
  split.
  - apply Rmult_le_pos; [exact Hlo | lra].
  - apply (Rmult_le_reg_r 65537); [lra|]. unfold Rdiv.
    rewrite Rmult_assoc, Rinv_l by lra. lra.
Qed.

Lemma draws_length (s : Z) (lo hi : R) (n : nat) :
  List.length (fst (draws s lo hi n)) = n.
Proof.
  revert s. induction n as [|n IH]; intros s; simpl; [reflexivity|].
  specialize (IH (lcg s)). destruct (draws (lcg s) lo hi n). simpl in *.
  now rewrite IH.
Qed.

Lemma draws_range (s : Z) (lo hi : R) (n : nat) (x : R) :
  lo <= hi -> In x (fst (draws s lo hi n)) -> lo <= x <= hi.
Proof.
  intros Hlh. revert s. induction n as [|n IH]; intros s; simpl; [tauto|].
  specialize (IH (lcg s)). destruct (draws (lcg s) lo hi n). simpl in *.
  intros [<- | Hin]; [|auto].
  pose proof (lcg_fraction s). nra.
Qed.

Lemma lcg_contract : UniformContract Z.
Proof.
  constructor.
  - intros s lo hi n. apply draws_length.
  - intros s lo hi n x. apply draws_range.
Qed.

Lemma grow_zero_twice (b : BBox) : grow 0 (grow 0 b) = grow 0 b.
Proof.
  destruct b as [[[x0 y0] x1] y1]. unfold grow. repeat f_equal; lra.
Qed.

Lemma boxes_repaired : RepairedParts shape.
Proof.
  constructor; intros [x y|bs] p; simpl.
  - intros [<- | []]. reflexivity.
  - intros Hin. apply in_map_iff in Hin. destruct Hin as (b & <- & Hb).
    apply in_map_iff in Hb. destruct Hb as (b0 & <- & _).
    simpl. now rewrite grow_zero_twice.
  - intros [<- | []]. reflexivity.
  - intros Hin. apply in_map_iff in Hin. destruct Hin as (b & <- & _).
    reflexivity.
Qed.

Lemma twins_selection :
  snd (selection (fst (load_data twins)) "Atlantis") = Ok atlantis.
Proof. reflexivity. Qed.

Lemma twins_run :
  exists r, snd (main repr_float twins (pick "Atlantis" 50)) = Ok r
            /\ sel r = atlantis.
Proof.
  apply app_completes; [reflexivity | exact twins_selection | discriminate].
Qed.

Lemma point_in_world (lo la : R) :
  -180 <= lo <= 180 -> -60 <= la <= 75 -> inside lo la (grow 0 world) = true.
Proof.
  intros Hlo Hla. unfold inside, grow, world.
  rewrite !Rltb_true by lra. reflexivity.
Qed.

Lemma two_pieces_around (l : list (Cell shape)) :
  In l (rows (snd (load_data twins))) ->
  pieces_around atlantis (geometry_cell (snd (load_data twins)) l) = 2%nat.
Proof.
  intros Hin. cbn [load_data snd] in *.
  destruct (sample_points_rows (UniformContract0 := lcg_contract))
    as (lats & lons & _ & _ & Hla & Hlo & Hrows).
  rewrite Hrows in Hin. apply in_map_iff in Hin.
  destruct Hin as ([i [la lo]] & <- & Hin). apply in_combine_r in Hin.
  pose proof (Hla la (in_combine_l _ _ _ _ Hin)).
  pose proof (Hlo lo (in_combine_r _ _ _ _ Hin)).
  unfold geometry_cell. rewrite sample_points_columns.
  pose proof (point_in_world lo la H0 H) as Hw.
  unfold inside, grow, world in Hw.
  unfold pieces_around, atlantis. simpl. rewrite Hw. reflexivity.
Qed.

Lemma island_selection :
  snd (selection (fst (load_data island)) "Isla") = Ok isla.
Proof. reflexivity. Qed.

Lemma island_run :
  exists r, snd (main repr_float island (pick "Isla" 50)) = Ok r
            /\ sel r = isla.
Proof.
  apply app_completes; [reflexivity | exact island_selection | discriminate].
Qed.

Lemma one_piece_at_most (pt : Cell shape) : (pieces_around isla pt <= 1)%nat.
Proof.
  unfold pieces_around, isla. simpl.
  destruct (cell_within pt _); simpl; lia.
Qed.

(** The table when one name is carried by two features: each covers every
    sample point, and the Membership Table of the run has 1200 rows, two per
    point. *)
Lemma twins_join_has_1200_rows :
  exists r, snd (main repr_float twins (pick "Atlantis" 50)) = Ok r
            /\ List.length (rows (joined r)) = 1200%nat
            /\ List.length (rows (joined r)) <> 600%nat.
Proof.
  destruct twins_run as (r & Hr & Hsel). exists r. split; [exact Hr|].
  destruct (blocks_of_run (UniformContract0 := lcg_contract) repr_float
                          twins _ r Hr) as ((block & Hrows & Hblock) & _).
  assert (Hlen : List.length (rows (joined r)) = 1200%nat).
  { rewrite Hrows, (flat_map_length_const block _ 2).
    - cbn [load_data snd].
      now rewrite (sample_points_length (UniformContract0 := lcg_contract)).
    - intros l Hl. destruct (Hblock l) as [-> _].
      rewrite Hsel, two_pieces_around by assumption. reflexivity. }
  split; [exact Hlen | rewrite Hlen; discriminate].
Qed.

(** Counterexample to C8 as stated: the exported table of a completed run
    has a sixth column, [index_right]. *)
Lemma twins_export_has_index_right :
  exists r table,
    snd (main repr_float twins (pick "Atlantis" 50)) = Ok r
    /\ export_table (joined r) = Ok table
    /\ columns table <> ["id"; "lat"; "lon"; "name"; "inside"].
Proof.
  destruct twins_run as (r & Hr & _).
  destruct (export_of_run repr_float twins _ r Hr) as (table & _ & Ht & Hc & _).
  exists r, table. repeat split; try assumption.
  rewrite Hc. discriminate.
Qed.

(** A matching feature without geometry: the pipeline returns a table
    without rows, and applied to that table it stops instead of returning
    it. *)
Lemma nullshape_not_idempotent :
  exists out,
    snd (selection nullshape "Nowhere") = Ok out
    /\ snd (selection out "Nowhere") <> Ok out.
Proof.
  eexists. split; [reflexivity|]. simpl. discriminate.
Qed.

(** *** The theorems at concrete inputs *)

Lemma no_match_halts_witness :
  where_col (fst (load_data twins)) "name" (str_eq "Narnia") =
    Ok {| columns := ["name"; "geometry"]; rows := [] |}
  /\ main repr_float twins (pick "Narnia" 50) =
     (page_before_selection ["Atlantis"], Stop).
Proof.
  apply (no_match_halts repr_float twins (pick "Narnia" 50) 0
                        ["Atlantis"; "Atlantis"]).
  - reflexivity.
  - reflexivity.
  - simpl. intros [Heq | [Heq | []]]; discriminate.
Defined.

Lemma antarctica_removed_witness :
  lower "Atlantis" <> "antarctica"
  /\ has_column (fst (load_data twins)) "name" = true.
Proof.
  destruct (antarctica_removed (S := Z) twins) as [Hrows Hcol].
  split.
  - apply (Hrows [CStr "Atlantis"; CGeom (Boxes [world])] 0%nat).
    + simpl. now left.
    + reflexivity.
    + reflexivity.
  - apply (Hcol "ADMIN").
    + simpl. tauto.
    + reflexivity.
Defined.

Lemma csv_export_columns_witness :
  exists r table,
    snd (main repr_float twins (pick "Atlantis" 50)) = Ok r
    /\ export_table (joined r) = Ok table
    /\ columns table = ["id"; "lat"; "lon"; "index_right"; "name"; "inside"].
Proof.
  destruct twins_run as (r & Hr & _).
  destruct (csv_export_columns repr_float twins _ r Hr)
    as (table & _ & Ht & Hc & _).
  exists r, table. repeat split; assumption.
Defined.

Lemma sample_points_in_range_witness :
  (forall r, In r (rows (snd (load_data twins))) ->
             exists i la lo,
               r = [CInt i; CFloat la; CFloat lo; CGeom (Pt lo la)]
               /\ -60 <= la <= 75 /\ -180 <= lo <= 180)
  /\ getitem (snd (load_data twins)) "id" =
     Ok (map (fun n => CInt (Z.of_nat n)) (seq 0 600)).
Proof.
  exact (sample_points_in_range (UniformContract0 := lcg_contract) twins).
Defined.
End DemoRuns.

(** ** More on the view-fit heuristic *)

Lemma log2_4 : log2 4 = 2.
Proof. replace 4 with (2 ^ 2) by (simpl; lra). rewrite log2_pow2. simpl. lra. Qed.

Lemma log2_256 : log2 256 = 8.
Proof. replace 256 with (2 ^ 8) by (simpl; lra). rewrite log2_pow2. simpl. lra. Qed.

Lemma span_floor (minx miny maxx maxy : R) :
  1 / 10 <= ViewFitSpec.span minx miny maxx maxy.
Proof. unfold ViewFitSpec.span. apply Rmax_r. Qed.

Lemma clamp_below (x lo hi : R) :
  lo <= hi -> x <= lo -> ViewFitSpec.clamp x lo hi = lo.
Proof.
  intros Hlh Hx. unfold ViewFitSpec.clamp.
  destruct (Rlt_dec x lo); [reflexivity|].
  assert (x = lo) by lra. subst. destruct (Rlt_dec hi lo); [lra | reflexivity].
Qed.

Lemma clamp_monotone (x y lo hi : R) :
  lo <= hi -> x <= y -> ViewFitSpec.clamp x lo hi <= ViewFitSpec.clamp y lo hi.
Proof.
  intros Hlh Hxy. unfold ViewFitSpec.clamp.
  destruct (Rlt_dec x lo), (Rlt_dec y lo), (Rlt_dec hi x), (Rlt_dec hi y); lra.
Qed.

Lemma zoom_of_view (minx miny maxx maxy : R) :
  snd (view_of_bounds (minx, miny, maxx, maxy)) =
  ViewFitSpec.zoom minx miny maxx maxy.
Proof. now rewrite view_of_bounds_spec. Qed.

(** The zoom levels at which the clamp takes over: a box of 90 degrees or
    more on a side is shown at zoom 2, a box of at most 1.40625 degrees on
    both sides at zoom 8, anything between at log2(360 / span). *)
Theorem zoom_thresholds (minx miny maxx maxy : R) :
  (90 <= maxx - minx \/ 90 <= maxy - miny ->
   snd (view_of_bounds (minx, miny, maxx, maxy)) = 2)
  /\ (maxx - minx <= 45 / 32 /\ maxy - miny <= 45 / 32 ->
      snd (view_of_bounds (minx, miny, maxx, maxy)) = 8)
  /\ (45 / 32 <= ViewFitSpec.span minx miny maxx maxy <= 90 ->
      snd (view_of_bounds (minx, miny, maxx, maxy)) =
      log2 (360 / ViewFitSpec.span minx miny maxx maxy)).
Proof.
  rewrite zoom_of_view. unfold ViewFitSpec.zoom.
  pose proof (span_floor minx miny maxx maxy) as Hfloor.
  set (span := ViewFitSpec.span minx miny maxx maxy) in *.
  assert (Hpos : 0 < 360 / span) by (apply Rdiv_lt_0_compat; lra).
  split; [|split].
  - intros Hwide.
    assert (Hs : 90 <= span).
    { unfold span, ViewFitSpec.span.
      pose proof (Rmax_l (Rmax (maxx - minx) (maxy - miny)) (1 / 10)).
      pose proof (Rmax_l (maxx - minx) (maxy - miny)).
      pose proof (Rmax_r (maxx - minx) (maxy - miny)). lra. }
    apply clamp_below; [lra|]. rewrite <- log2_4. apply log2_le; [assumption|].
    apply (Rmult_le_reg_r span); [lra|]. unfold Rdiv.
    rewrite Rmult_assoc, Rinv_l by lra. lra.
  - intros [Hx Hy].
    assert (Hs : span <= 45 / 32).
    { unfold span, ViewFitSpec.span. apply Rmax_lub; [apply Rmax_lub|]; lra. }
    apply clamp_above; [lra|]. rewrite <- log2_256. apply log2_le; [lra|].
    apply (Rmult_le_reg_r span); [lra|]. unfold Rdiv.
    rewrite Rmult_assoc, Rinv_l by lra. lra.
  - intros [Hlo Hhi]. apply clamp_inside. split.
    + rewrite <- log2_4. apply log2_le; [lra|].
      apply (Rmult_le_reg_r span); [lra|]. unfold Rdiv.
      rewrite Rmult_assoc, Rinv_l by lra. lra.
    + rewrite <- log2_256. apply log2_le; [assumption|].
      apply (Rmult_le_reg_r span); [lra|]. unfold Rdiv.
      rewrite Rmult_assoc, Rinv_l by lra. lra.
Qed.

Lemma zoom_thresholds_witness :
  snd (view_of_bounds (0, 0, 100, 10)) = 2
  /\ snd (view_of_bounds (3, 4, 4, 5)) = 8.
Proof.
  split.
  - apply (zoom_thresholds 0 0 100 10). left. lra.
  - apply (zoom_thresholds 3 4 4 5). lra.
Defined.

(** A box at least as large on its larger side is never shown at a higher
    zoom. *)
Theorem zoom_antitone (b1 b2 : BBox) :
  (let '(minx, miny, maxx, maxy) := b1 in ViewFitSpec.span minx miny maxx maxy)
  <= (let '(minx, miny, maxx, maxy) := b2 in ViewFitSpec.span minx miny maxx maxy) ->
  snd (view_of_bounds b2) <= snd (view_of_bounds b1).
Proof.
  destruct b1 as [[[x0 y0] x1] y1], b2 as [[[a0 b0] a1] b1].
  rewrite !zoom_of_view. unfold ViewFitSpec.zoom. intros Hs.
  pose proof (span_floor x0 y0 x1 y1). pose proof (span_floor a0 b0 a1 b1).
  apply clamp_monotone; [lra|]. apply log2_le.
  - apply Rdiv_lt_0_compat; lra.
  - unfold Rdiv. apply Rmult_le_compat_l; [lra|].
    apply Rinv_le_contravar; lra.
Qed.

Lemma zoom_antitone_witness :
  snd (view_of_bounds (0, 0, 40, 10)) <= snd (view_of_bounds (0, 0, 20, 10)).
Proof.
  apply (zoom_antitone (0, 0, 20, 10) (0, 0, 40, 10)).
  unfold ViewFitSpec.span.
  replace (20 - 0) with 20 by lra. replace (40 - 0) with 40 by lra.
  replace (10 - 0) with 10 by lra.
  rewrite (Rmax_left 20 10), (Rmax_left 40 10) by lra.
  rewrite !Rmax_left by lra. lra.
Defined.

(** The centre of the view lies inside a box whose corners are in order. *)
Theorem view_centre_in_box (minx miny maxx maxy : R) :
  minx <= maxx -> miny <= maxy ->
  let '(lat, lon, _) := view_of_bounds (minx, miny, maxx, maxy) in
  miny <= lat <= maxy /\ minx <= lon <= maxx.
Proof.
  intros Hx Hy. rewrite view_of_bounds_spec. lra.
Qed.

Lemma view_centre_in_box_witness :
  let '(lat, lon, _) := view_of_bounds (-10, -5, 10, 5) in
  -5 <= lat <= 5 /\ -10 <= lon <= 10.
Proof.
  apply (view_centre_in_box (-10) (-5) 10 5); lra.
Defined.

(** ** More on the data loader *)

Lemma index_of_renamed (c n : string) (cols : list string) :
  c = n \/ ~ In n cols ->
  index_of n (map (fun k => if String.eqb k c then n else k) cols) =
  index_of c cols.
Proof.
  intros Hn. induction cols as [|k cols IH]; [reflexivity|].
  simpl. destruct (String.eqb k c) eqn:Ekc.
  - apply String.eqb_eq in Ekc. subst k.
    now rewrite !String.eqb_refl.
  - rewrite (String.eqb_sym c k), Ekc.
    destruct (String.eqb n k) eqn:Enk.
    + apply String.eqb_eq in Enk. subst k.
      destruct Hn as [-> | Hn]; [now rewrite String.eqb_refl in Ekc|].
      exfalso. apply Hn. now left.
    + rewrite IH; [reflexivity|].
      destruct Hn as [Hn | Hn]; [now left | right].
      intros Hin. apply Hn. now right.
Qed.

Lemma index_of_other (c n k : string) (cols : list string) :
  k <> c -> k <> n ->
  index_of k (map (fun h => if String.eqb h c then n else h) cols) =
  index_of k cols.
Proof.
  intros Hc Hn. induction cols as [|h cols IH]; [reflexivity|].
  simpl. destruct (String.eqb h c) eqn:Ehc.
  - apply String.eqb_eq in Ehc. subst h.
    apply String.eqb_neq in Hc, Hn. now rewrite Hc, Hn, IH.
  - now rewrite IH.
Qed.

Lemma map_rename_same (c : string) (cols : list string) :
  map (fun k => if String.eqb k c then c else k) cols = cols.
Proof.
  induction cols as [|k cols IH]; [reflexivity|]. simpl. rewrite IH.
  destruct (String.eqb k c) eqn:E; [|reflexivity].
  apply String.eqb_eq in E. now subst.
Qed.

Lemma filter_twice {A} (f : A -> bool) (l : list A) :
  filter f (filter f l) = filter f l.
Proof.
  induction l as [|x l IH]; [reflexivity|]. simpl.
  destruct (f x) eqn:E; simpl; rewrite ?E, IH; reflexivity.
Qed.

Section LoaderMore.
Context {G : Type} `{Geometry G} {S : Type} `{Generator S}.
Variable repr_float : R -> string.

Lemma rename_same (df : DataFrame G) (c : string) : rename df c c = df.
Proof. destruct df as [cols rs]. unfold rename. simpl. now rewrite map_rename_same. Qed.

Lemma standardise_name_find (cs : list string) (df : DataFrame G) :
  standardise_name cs df = match find (has_column df) cs with
                           | Some c => rename df c "name"
                           | None => df
                           end.
Proof.
  induction cs as [|c cs IH]; [reflexivity|]. simpl.
  now destruct (has_column df c).
Qed.

Lemma first_candidate_is_name (df : DataFrame G) (c : string) :
  find (has_column df) name_candidates = Some c ->
  c = "name" \/ ~ In "name" (columns df).
Proof.
  unfold name_candidates. simpl.
  destruct (has_column df "name") eqn:E.
  - intros [= <-]. now left.
  - intros _. right. intros Hin. apply mem_string_In in Hin.
    unfold has_column in E. congruence.
Qed.

(** Which column becomes [name]: the first label of the priority list that
    the fetched table carries; every other column keeps its label and its
    place, and a table with none of the labels is left as fetched. *)
Theorem name_column_priority (fetched : DataFrame G) :
  let countries := fst (load_data (S:=S) fetched) in
  match find (has_column fetched) name_candidates with
  | Some c =>
      col_index "name" (columns countries) = col_index c (columns fetched)
      /\ forall k, k <> c -> k <> "name" ->
                   col_index k (columns countries) = col_index k (columns fetched)
  | None => countries = fetched
  end.
Proof.
  unfold load_data. cbn [fst].
  rewrite standardise_name_find.
  destruct (find (has_column fetched) name_candidates) as [c|] eqn:Ef.
  - rewrite drop_antarctica_columns. unfold rename, col_index. cbn [columns].
    split.
    + apply index_of_renamed. destruct (first_candidate_is_name _ _ Ef); auto.
    + intros k Hc Hn. now apply index_of_other.
  - unfold drop_antarctica.
    destruct (col_index "name" (columns fetched)) as [i|] eqn:Ei; [|reflexivity].
    apply index_of_Some_In, mem_string_In in Ei.
    unfold name_candidates in Ef. simpl in Ef. unfold has_column in Ef.
    rewrite Ei in Ef. discriminate.
Qed.

Lemma standardise_name_rows (cs : list string) (df : DataFrame G) :
  rows (standardise_name cs df) = rows df.
Proof.
  rewrite standardise_name_find. now destruct (find (has_column df) cs).
Qed.

(** The loader drops nothing but the rows named Antarctica: the rows that
    remain are the fetched rows whose name does not lower-case to
    "antarctica", in their order and with their cells. *)
Theorem load_data_keeps_the_rest (fetched : DataFrame G) (i : nat) :
  let countries := fst (load_data (S:=S) fetched) in
  col_index "name" (columns countries) = Some i ->
  rows countries =
  filter (fun r => lower_ne "antarctica" (cell_at i r)) (rows fetched)
  /\ List.length (columns countries) = List.length (columns fetched).
Proof.
  unfold load_data. cbn [fst]. rewrite drop_antarctica_columns. intros Hi.
  unfold drop_antarctica. rewrite Hi. unfold filter_rows. cbn [rows columns].
  rewrite standardise_name_rows. split; [reflexivity|].
  rewrite standardise_name_find.
  destruct (find (has_column fetched) name_candidates); [|reflexivity].
  unfold rename. cbn [columns]. apply length_map.
Qed.

Lemma standardise_name_fixed (df : DataFrame G) :
  has_column df "name" = true -> standardise_name name_candidates df = df.
Proof.
  intros Hn. unfold name_candidates. simpl. rewrite Hn. apply rename_same.
Qed.

(** Loading is idempotent on the country table: normalising and filtering a
    table the loader has already produced returns it unchanged. *)
Theorem load_data_idempotent (fetched : DataFrame G) :
  fst (load_data (S:=S) (fst (load_data (S:=S) fetched))) =
  fst (load_data (S:=S) fetched).
Proof.
  unfold load_data. cbn [fst].
  set (c1 := standardise_name name_candidates fetched).
  unfold drop_antarctica at 2 3.
  destruct (col_index "name" (columns c1)) as [i|] eqn:Ei.
  - assert (Hn : has_column (filter_rows c1 i (lower_ne "antarctica")) "name" = true).
    { unfold has_column, filter_rows. cbn [columns].
      eapply mem_string_In, index_of_Some_In; exact Ei. }
    rewrite (standardise_name_fixed _ Hn).
    unfold drop_antarctica, filter_rows. cbn [columns rows]. rewrite Ei.
    now rewrite filter_twice.
  - assert (Hc1 : c1 = fetched).
    { unfold c1. rewrite standardise_name_find.
      destruct (find (has_column fetched) name_candidates) as [c|] eqn:Ef;
        [|reflexivity].
      exfalso. apply find_some in Ef. destruct Ef as [Hin Hc].
      pose proof (standardise_name_has_name _ _ _ Hin Hc) as Hn.
      fold c1 in Hn. apply mem_string_In, In_index_of in Hn.
      destruct Hn as [j Hj]. unfold col_index in Ei. congruence. }
    rewrite Hc1. fold c1. rewrite Hc1.
    unfold drop_antarctica. rewrite Hc1 in Ei. now rewrite Ei.
Qed.

(** A fetched table with none of the candidate labels makes the script fail
    at line 63 with [KeyError: 'name']: the page shows the three header
    elements, the sidebar title and the error, and nothing else. *)
Theorem no_name_column_raises (fetched : DataFrame G) (inp : Inputs) :
  (forall c, In c name_candidates -> has_column fetched c = false) ->
  main (S:=S) repr_float fetched inp =
  ([ SetPageConfig "GeoPandas + Streamlit Mini Demo" "wide";
     Title title_text;
     Markdown intro_text;
     Header "Controls";
     ErrorMessage (KeyError "name") ],
   Raise (KeyError "name")).
Proof.
  intros Hnone.
  assert (Hf : find (has_column fetched) name_candidates = None).
  { destruct (find (has_column fetched) name_candidates) as [c|] eqn:Ef;
      [|reflexivity].
    apply find_some in Ef. destruct Ef as [Hin Hc].
    rewrite (Hnone c Hin) in Hc. discriminate. }
  assert (Hp : fst (load_data (S:=S) fetched) = fetched).
  { unfold load_data. cbn [fst]. rewrite standardise_name_find, Hf.
    unfold drop_antarctica.
    destruct (col_index "name" (columns fetched)) as [i|] eqn:Ei; [|reflexivity].
    apply index_of_Some_In, mem_string_In in Ei.
    unfold has_column in Hnone. rewrite (Hnone "name") in Ei; [discriminate|].
    simpl. now left. }
  assert (Hi : col_index "name" (columns fetched) = None).
  { destruct (col_index "name" (columns fetched)) as [i|] eqn:Ei; [|reflexivity].
    apply index_of_Some_In, mem_string_In in Ei.
    unfold has_column in Hnone. rewrite (Hnone "name") in Ei; [discriminate|].
    simpl. now left. }
  unfold main, app.
  change (load_data fetched) with
    (fst (load_data (S:=S) fetched), sample_points (G:=G) (S:=S)).
  rewrite Hp.
  unfold sidebar, getitem. rewrite Hi. reflexivity.
Qed.
End LoaderMore.

(** ** The sidebar (lines 61-68) *)

Lemma In_insert_sorted (x y : string) (l : list string) :
  In y (insert_sorted x l) <-> y = x \/ In y l.
Proof.
  induction l as [|z l IH]; simpl; [intuition congruence|].
  destruct (String.leb x z); simpl; [intuition congruence|].
  rewrite IH. intuition congruence.
Qed.

Lemma In_sorted (y : string) (l : list string) : In y (sorted l) <-> In y l.
Proof.
  unfold sorted. induction l as [|x l IH]; simpl; [tauto|].
  rewrite In_insert_sorted, IH. intuition congruence.
Qed.

Lemma In_unique (y : string) (l seen : list string) :
  In y (unique l seen) <-> In y l /\ ~ In y seen.
Proof.
  revert seen. induction l as [|x l IH]; intros seen; simpl; [tauto|].
  destruct (mem_string x seen) eqn:E.
  - apply mem_string_In in E. rewrite IH. intuition congruence.
  - assert (Hx : ~ In x seen).
    { intros Hin. apply mem_string_In in Hin. congruence. }
    simpl. rewrite IH. simpl. split.
    + intros [<- | [Hl Hs]]; [tauto|]. split; [tauto|]. intros Hin. apply Hs. now right.
    + intros [[<- | Hl] Hs]; [now left|].
      destruct (string_dec x y) as [-> | Hne]; [now left | right].
      split; [assumption|]. intros [Heq | Hin]; [congruence | tauto].
Qed.

Lemma NoDup_unique (l seen : list string) : NoDup (unique l seen).
Proof.
  revert seen. induction l as [|x l IH]; intros seen; simpl; [constructor|].
  destruct (mem_string x seen); [apply IH|].
  constructor; [|apply IH]. rewrite In_unique. simpl. tauto.
Qed.

Lemma NoDup_insert_sorted (x : string) (l : list string) :
  ~ In x l -> NoDup l -> NoDup (insert_sorted x l).
Proof.
  induction l as [|z l IH]; simpl; intros Hx Hl.
  - constructor; [tauto | constructor].
  - destruct (String.leb x z).
    + constructor; [simpl; tauto | assumption].
    + inversion Hl as [|? ? Hz Hl']; subst. constructor.
      * rewrite In_insert_sorted. intros [-> | Hin]; tauto.
      * apply IH; tauto.
Qed.

Lemma NoDup_sorted (l : list string) : NoDup l -> NoDup (sorted l).
Proof.
  unfold sorted. induction l as [|x l IH]; simpl; intros Hl; [constructor|].
  inversion Hl; subst. apply NoDup_insert_sorted; [|auto].
  fold (sorted l). now rewrite In_sorted.
Qed.

Lemma HdRel_insert_sorted (a x : string) (l : list string) :
  String.leb a x = true ->
  HdRel (fun s t => String.leb s t = true) a l ->
  HdRel (fun s t => String.leb s t = true) a (insert_sorted x l).
Proof.
  intros Hax Hal. destruct l as [|z l]; simpl; [now constructor|].
  destruct (String.leb x z); constructor; [assumption|].
  now inversion Hal.
Qed.

Lemma Sorted_insert_sorted (x : string) (l : list string) :
  Sorted (fun s t => String.leb s t = true) l ->
  Sorted (fun s t => String.leb s t = true) (insert_sorted x l).
Proof.
  induction l as [|z l IH]; simpl; intros Hl; [now repeat constructor|].
  destruct (String.leb x z) eqn:E.
  - constructor; [assumption | now constructor].
  - inversion Hl as [|? ? Hl' Hz]; subst. constructor; [now apply IH|].
    apply HdRel_insert_sorted; [|assumption].
    destruct (String.leb_total x z) as [Hxz | Hzx]; congruence.
Qed.

Lemma Sorted_sorted (l : list string) :
  Sorted (fun s t => String.leb s t = true) (sorted l).
Proof.
  unfold sorted. induction l as [|x l IH]; simpl; [constructor|].
  now apply Sorted_insert_sorted.
Qed.

Lemma index_of_nth (x : string) (l : list string) (i : nat) (d : string) :
  index_of x l = Some i -> nth i l d = x.
Proof.
  revert i. induction l as [|y l IH]; intros i; simpl; [discriminate|].
  destruct (String.eqb x y) eqn:E.
  - apply String.eqb_eq in E. now intros [= <-].
  - destruct (index_of x l) as [j|]; simpl; [|discriminate].
    intros [= <-]. now apply IH.
Qed.

Section Sidebar.
Context {G : Type} `{Geometry G}.

(** The country selector offers each name of the table once, in ascending
    order; it starts on "New Zealand" when a region has that name and on the
    first option otherwise.  The slider and the two checkboxes follow. *)
Theorem sidebar_options (countries : DataFrame G) (i : nat) (names : list string) :
  col_index "name" (columns countries) = Some i ->
  cell_strings (map (cell_at i) (rows countries)) = Some names ->
  exists options idx,
    sidebar countries =
      ([ Header "Controls";
         Selectbox "Country:" options idx;
         Slider "Buffer distance (km)" 0 200 50 10;
         Checkbox "Show all country boundaries" true;
         Checkbox "Show points outside country" false ], Ok tt)
    /\ (forall x, In x options <-> In x names)
    /\ NoDup options
    /\ Sorted (fun s t => String.leb s t = true) options
    /\ (In "New Zealand" names -> nth idx options "" = "New Zealand")
    /\ (~ In "New Zealand" names -> idx = O).
Proof.
  intros Hi Hnames.
  exists (sorted (unique names [])).
  exists (match index_of "New Zealand" (sorted (unique names [])) with
          | Some k => k
          | None => O
          end).
  assert (Hin : forall x, In x (sorted (unique names [])) <-> In x names).
  { intros x. rewrite In_sorted, In_unique. simpl. tauto. }
  split; [|split; [exact Hin | split; [|split; [|split]]]].
  - unfold sidebar, getitem, options_of. rewrite Hi.
    cbn [bind emit lift fst snd]. rewrite Hnames. reflexivity.
  - apply NoDup_sorted, NoDup_unique.
  - apply Sorted_sorted.
  - intros Hnz. apply Hin, In_index_of in Hnz. destruct Hnz as [k Hk].
    rewrite Hk. now apply index_of_nth.
  - intros Hnz.
    destruct (index_of "New Zealand" (sorted (unique names []))) as [k|] eqn:Ek;
      [|reflexivity].
    exfalso. apply Hnz, Hin. eapply index_of_Some_In; eassumption.
Qed.
End Sidebar.

(** ** The page of a run *)

Section PageOfRun.
Context {G : Type} `{Geometry G} {S : Type} `{Generator S}.
Variable repr_float : R -> string.

Lemma sidebar_trace (countries : DataFrame G) (u : unit) :
  snd (sidebar countries) = Ok u ->
  exists options,
    fst (sidebar countries) =
    [ Header "Controls";
      Selectbox "Country:" options match index_of "New Zealand" options with
                                   | Some i => i
                                   | None => O
                                   end;
      Slider "Buffer distance (km)" 0 200 50 10;
      Checkbox "Show all country boundaries" true;
      Checkbox "Show points outside country" false ].
Proof.
  unfold sidebar. rewrite !snd_bind, !fst_bind. cbn [emit lift fst snd res_bind].
  destruct (getitem countries "name") as [names| |e]; cbn [res_bind]; try discriminate.
  rewrite !snd_bind, !fst_bind. cbn [emit lift fst snd res_bind].
  destruct (options_of names) as [options| |e]; cbn [res_bind]; try discriminate.
  intros _. exists options. reflexivity.
Qed.

Lemma selection_trace (countries s0 : DataFrame G) (name : string) :
  snd (selection countries name) = Ok s0 ->
  fst (selection countries name) = [Call OpRepair; Call OpExplode].
Proof.
  unfold selection. rewrite snd_bind, fst_bind. cbn [lift fst snd].
  destruct (where_col countries "name" (str_eq name)) as [sel0| |e];
    cbn [res_bind]; try discriminate.
  destruct (rows sel0); [discriminate|].
  rewrite snd_bind, fst_bind. cbn [call fst snd].
  destruct (map_geometry _ sel0); cbn [res_bind]; try discriminate.
  reflexivity.
Qed.

Lemma buffering_trace (s0 b : DataFrame G) (km : Z) :
  snd (buffering s0 km) = Ok b ->
  fst (buffering s0 km) =
  [Call (OpToCrs 3857); Call (OpBuffer (km * 1000)); Call (OpToCrs 4326)].
Proof.
  unfold buffering. rewrite snd_bind, fst_bind. cbn [call fst snd].
  destruct (map_geometry (to_crs 4326 3857) s0) as [s3857| |e];
    cbn [res_bind]; try discriminate.
  rewrite snd_bind, fst_bind. cbn [call fst snd].
  destruct (res_map _ (geometry s3857)); cbn [res_bind]; try discriminate.
  reflexivity.
Qed.

Lemma membership_trace (pts s0 j : DataFrame G) :
  snd (membership pts s0) = Ok j -> fst (membership pts s0) = [Call OpSjoin].
Proof.
  unfold membership. rewrite snd_bind, fst_bind. cbn [lift fst snd].
  destruct (take_columns s0 ["name"; "geometry"]) as [right| |e];
    cbn [res_bind]; try discriminate.
  rewrite snd_bind, fst_bind. cbn [call lift fst snd].
  destruct (sjoin pts right); cbn [res_bind]; try discriminate.
  reflexivity.
Qed.

Lemma export_trace (j : DataFrame G) (text : string) :
  snd (export repr_float j) = Ok text -> fst (export repr_float j) = [Call OpToCsv].
Proof.
  unfold export. rewrite snd_bind, fst_bind. cbn [lift call fst snd].
  destruct (export_table j); cbn [res_bind]; try discriminate. reflexivity.
Qed.

Lemma build_layers_trace (inp : Inputs) (c s b i o : DataFrame G) (ls : list Layer) :
  snd (build_layers inp c s b i o) = Ok ls ->
  fst (build_layers inp c s b i o) = repeat (Call OpLayer) (List.length ls).
Proof.
  unfold build_layers, append_if.
  destruct (show_all_countries inp), (0 <? buffer_km inp)%Z,
    (0 <? List.length (rows i))%nat,
    (show_points_outside inp && (0 <? List.length (rows o))%nat);
    cbn; intros [= <-]; reflexivity.
Qed.

Ltac peel2 :=
  repeat (rewrite ?snd_bind, ?fst_bind;
          cbn [emit lift call ret fst snd res_bind res_map]).

Ltac split2 r :=
  destruct r eqn:?; cbn [res_bind res_map]; try (intros ?; discriminate); peel2.

(** Everything a completed run has computed, and its event trace. *)
Lemma app_full (fetched : DataFrame G) (inp : Inputs) (r : Render) :
  snd (app repr_float fetched inp) = Ok r ->
  let countries := fst (load_data (S:=S) fetched) in
  exists options ins outs gs rep flags,
    fst (sidebar countries) = skipn 3 (page_before_selection options)
    /\ where_col (joined r) "inside" is_true = Ok ins
    /\ take_columns ins ["lat"; "lon"; "id"] = Ok (inside_pts r)
    /\ where_col (joined r) "inside" is_not_true = Ok outs
    /\ take_columns outs ["lat"; "lon"; "id"] = Ok (outside_pts r)
    /\ geometry (sel r) = Ok gs
    /\ first_representative gs = Ok rep
    /\ center r = (geom_y rep, geom_x rep)
    /\ getitem (joined r) "inside" = Ok flags
    /\ snd (build_layers inp countries (sel r) (buffered r)
                         (inside_pts r) (outside_pts r)) = Ok (layers r)
    /\ fst (app repr_float fetched inp) =
       page_before_selection options
       ++ page_after_selection inp (count_true flags) r.
Proof.
  unfold app, load_data. cbn [fst snd].
  set (countries := drop_antarctica _). set (pts := sample_points).
  peel2.
  split2 (snd (sidebar countries)).
  destruct (sidebar_trace _ _ Heqr0) as [options Hside]. rewrite Hside.
  split2 (snd (selection countries (country_name inp))).
  rewrite (selection_trace _ _ _ Heqr1).
  split2 (snd (buffering a0 (buffer_km inp))).
  rewrite (buffering_trace _ _ _ Heqr2).
  split2 (snd (membership pts a0)).
  rewrite (membership_trace _ _ _ Heqr3).
  split2 (where_col a2 "inside" is_true).
  split2 (take_columns a3 ["lat"; "lon"; "id"]).
  split2 (where_col a2 "inside" is_not_true).
  split2 (take_columns a5 ["lat"; "lon"; "id"]).
  split2 (geometry a0).
  split2 (first_representative a7).
  split2 (getitem a2 "inside").
  split2 (snd (build_layers inp countries a0 a1 a4 a6)).
  rewrite (build_layers_trace _ _ _ _ _ _ _ Heqr11).
  split2 (snd (export repr_float a2)).
  rewrite (export_trace _ _ Heqr12).
  intros [= <-]. cbn [sel joined buffered view csv inside_pts outside_pts center layers].
  exists options, a3, a5, a7, a8, a9.
  repeat (split; [first [assumption | reflexivity]|]).
  unfold page_before_selection, page_after_selection, rendering_calls.
  cbn [sel joined buffered view csv inside_pts outside_pts center layers
       buffer_km List.app].
  reflexivity.
Qed.

Lemma complete_page_events (fetched : DataFrame G) (inp : Inputs) (r : Render) :
  snd (main (S:=S) repr_float fetched inp) = Ok r ->
  exists options n,
    fst (main (S:=S) repr_float fetched inp) =
    page_before_selection options ++ page_after_selection inp n r.
Proof.
  unfold main. rewrite snd_run. intros Hr. rewrite (run_ok _ _ Hr).
  destruct (app_full _ _ _ Hr)
    as (options & ins & outs & gs & rep & flags & _ & _ & _ & _ & _ & _ & _ & _
        & _ & _ & Htrace).
  exists options, (count_true flags). exact Htrace.
Qed.

(** The page of a completed run, top to bottom: header and sidebar, the
    seven library calls of the pipeline, the three counters (flagged rows,
    rows of the Membership Table, slider value), one call per layer, the
    chart with those layers and the fitted view, the expander text, the CSV
    download and the caption. *)
Theorem complete_page (fetched : DataFrame G) (inp : Inputs) (r : Render) :
  snd (main (S:=S) repr_float fetched inp) = Ok r ->
  exists options n,
    points_inside r = Ok n
    /\ fst (main (S:=S) repr_float fetched inp) =
       page_before_selection options ++ page_after_selection inp n r.
Proof.
  unfold main. rewrite snd_run. intros Hr. rewrite (run_ok _ _ Hr).
  destruct (app_full _ _ _ Hr)
    as (options & ins & outs & gs & rep & flags & _ & _ & _ & _ & _ & _ & _ & _
        & Hflags & _ & Htrace).
  exists options, (count_true flags). split; [|exact Htrace].
  unfold points_inside. now rewrite Hflags.
Qed.

Ltac next2 E := rewrite ?E; cbn [res_bind]; peel2.

(** When the selected features yield no part at all (their geometry is
    missing or empty), the run gets through buffering and the join and then
    fails at line 89 with [IndexError]: no counter, chart or download is
    shown, only the error. *)
Theorem no_part_raises_index_error (fetched : DataFrame G) (inp : Inputs)
        (s0 : DataFrame G) :
  let countries := fst (load_data (S:=S) fetched) in
  snd (sidebar countries) = Ok tt ->
  snd (selection countries (country_name inp)) = Ok s0 ->
  rows s0 = [] ->
  exists options,
    main (S:=S) repr_float fetched inp =
    (page_before_selection options ++ rendering_calls (buffer_km inp)
       ++ [ErrorMessage IndexError],
     Raise IndexError).
Proof.
  intros countries Hside Hsel Hrows.
  destruct (sidebar_trace _ _ Hside) as [options Hst]. exists options.
  destruct (selection_shape _ _ _ Hsel) as (ni & gi & Hni & Hgi & _).
  destruct (buffering_ok s0 (buffer_km inp) gi Hgi) as [b Hb].
  set (pts := sample_points (G:=G) (S:=S)).
  destruct (membership_ok pts s0 3 ni gi) as [j Hj]; try assumption.
  { subst pts. now rewrite sample_points_columns. }
  assert (Hc : columns j = ["id"; "lat"; "lon"; "geometry"; "index_right";
                            "name"; "inside"]).
  { destruct (membership_rows _ _ _ Hj) as [-> _].
    subst pts. now rewrite sample_points_columns. }
  assert (Hw : forall t, where_col j "inside" t = Ok (filter_rows j 6 t)).
  { intros t. unfold where_col. now rewrite Hc. }
  assert (Ht : forall t, exists d,
               take_columns (filter_rows j 6 t) ["lat"; "lon"; "id"] = Ok d).
  { intros t. unfold take_columns, filter_rows. cbn [columns].
    rewrite Hc. simpl. eauto. }
  destruct (Ht is_true) as [ins Hins]. destruct (Ht is_not_true) as [outs Houts].
  assert (Hg : geometry s0 = Ok []).
  { unfold geometry. now rewrite Hgi, Hrows. }
  assert (Happ : app repr_float fetched inp =
                 (page_before_selection options
                    ++ rendering_calls (buffer_km inp), Raise IndexError)).
  { rewrite (surjective_pairing (app repr_float fetched inp)).
    unfold app.
    change (load_data fetched) with (countries, pts). cbv iota.
    peel2. next2 Hside. rewrite Hst. next2 Hsel.
    rewrite (selection_trace _ _ _ Hsel). next2 Hb.
    rewrite (buffering_trace _ _ _ Hb). next2 Hj.
    rewrite (membership_trace _ _ _ Hj).
    next2 Hw. next2 Hins. next2 Hw. next2 Houts. next2 Hg.
    cbn [first_representative res_bind]. reflexivity. }
  unfold main, run. rewrite Happ. cbn [fst snd].
  now rewrite <- app_assoc.
Qed.
End PageOfRun.

(** ** Selection, buffer and table, row by row *)

Lemma flat_map_of_map {A B C} (f : B -> list C) (g : A -> B) (l : list A) :
  flat_map f (map g l) = flat_map (fun x => f (g x)) l.
Proof.
  induction l as [|x l IH]; simpl; [reflexivity | now rewrite IH].
Qed.

Lemma filter_flat_map {A B} (p : B -> bool) (f : A -> list B) (l : list A) :
  filter p (flat_map f l) = flat_map (fun x => filter p (f x)) l.
Proof.
  induction l as [|x l IH]; simpl; [reflexivity|].
  now rewrite filter_app, IH.
Qed.

Lemma flat_map_length_sum {A B} (f : A -> list B) (l : list A) :
  List.length (flat_map f l) = list_sum (map (fun x => List.length (f x)) l).
Proof.
  induction l as [|x l IH]; simpl; [reflexivity|].
  now rewrite length_app, IH.
Qed.

Lemma flat_map_ext_on {A B} (f g : A -> list B) (l : list A) :
  (forall x, In x l -> f x = g x) -> flat_map f l = flat_map g l.
Proof.
  induction l as [|x l IH]; simpl; intros Hfg; [reflexivity|].
  rewrite (Hfg x), IH by auto. reflexivity.
Qed.

Lemma filter_of_map {A B} (p : B -> bool) (f : A -> B) (l : list A) :
  filter p (map f l) = map f (filter (fun x => p (f x)) l).
Proof.
  induction l as [|x l IH]; simpl; [reflexivity|].
  destruct (p (f x)); simpl; now rewrite IH.
Qed.

Lemma enumerate_map {A B} (f : A -> B) (l : list A) (i : nat) :
  enumerate i (map f l) = map (fun jr => (fst jr, f (snd jr))) (enumerate i l).
Proof.
  revert i. induction l as [|x l IH]; intros i; simpl; [reflexivity|].
  now rewrite IH.
Qed.

Lemma In_enumerate {A} (l : list A) (i : nat) (jr : nat * A) :
  In jr (enumerate i l) -> In (snd jr) l.
Proof.
  revert i. induction l as [|x l IH]; intros i; simpl; [tauto|].
  intros [<- | Hin]; [now left | right; eauto].
Qed.

Lemma set_nth_twice {A} (i : nat) (v w : A) (l : list A) :
  set_nth i v (set_nth i w l) = set_nth i v l.
Proof.
  revert i. induction l as [|x l IH]; intros [|i]; simpl; try reflexivity.
  now rewrite IH.
Qed.

Section RowByRow.
Context {G : Type} `{Geometry G} {S : Type} `{Generator S}.
Variable repr_float : R -> string.

Lemma str_eq_true (name : string) (c : Cell G) :
  str_eq name c = true -> c = CStr name.
Proof.
  destruct c; simpl; try discriminate.
  intros Heq. apply String.eqb_eq in Heq. now subst.
Qed.

Lemma selection_rows_of (countries s0 : DataFrame G) (name : string) :
  snd (selection countries name) = Ok s0 ->
  exists ni gi,
    col_index "name" (columns countries) = Some ni
    /\ col_index "geometry" (columns countries) = Some gi
    /\ columns s0 = columns countries
    /\ rows s0 =
       flat_map (fun r0 => match cell_at gi r0 with
                           | CGeom g => map (fun p => set_nth gi (CGeom p) r0)
                                            (parts (buffer g 0))
                           | _ => []
                           end)
                (filter (keep_row name ni) (rows countries))
    /\ forall o, In o (rows s0) -> cell_at ni o = CStr name.
Proof.
  rewrite selection_value.
  destruct (col_index "name" (columns countries)) as [ni|] eqn:Eni; [|discriminate].
  destruct (col_index "geometry" (columns countries)) as [gi|] eqn:Egi.
  2:{ destruct (filter (keep_row name ni) (rows countries)); discriminate. }
  assert (Hne : ni <> gi).
  { intros ->. pose proof (index_of_same_position _ _ _ _ Eni Egi). discriminate. }
  destruct (filter (keep_row name ni) (rows countries)) as [|r0 kept] eqn:Ek;
    [discriminate|].
  assert (Hkept : forall r, In r (r0 :: kept) -> keep_row name ni r = true).
  { intros r Hr. rewrite <- Ek in Hr. now apply filter_In in Hr. }
  remember (r0 :: kept) as kk eqn:Ekk.
  intros [= <-]. cbn [columns rows]. exists ni, gi. rewrite Ek. clear Ek Ekk.
  assert (Hrows : flat_map (explode_row gi) (map (repair_row gi) kk) =
                  flat_map (fun r1 => match cell_at gi r1 with
                                      | CGeom g => map (fun p => set_nth gi (CGeom p) r1)
                                                       (parts (buffer g 0))
                                      | _ => []
                                      end) kk).
  { rewrite flat_map_of_map. apply flat_map_ext. intros r1.
    unfold explode_row, repair_row.
    destruct (cell_at gi r1) as [ | | | | |g] eqn:Ec; rewrite ?Ec; try reflexivity.
    unfold cell_at. rewrite nth_set_nth_eq by (eapply cell_geom_in_range; eassumption).
    apply map_ext. intros p. apply set_nth_twice. }
  do 3 (split; [reflexivity|]). split; [exact Hrows|].
  intros o Hin. rewrite Hrows in Hin. apply in_flat_map in Hin.
  destruct Hin as (r1 & Hr1 & Ho).
  destruct (cell_at gi r1) as [ | | | | |g]; try easy.
  apply in_map_iff in Ho. destruct Ho as (p & <- & _).
  unfold cell_at. rewrite nth_set_nth_neq by auto.
  apply str_eq_true. exact (Hkept r1 Hr1).
Qed.

(** The selection pipeline, composed: the output has the columns of the
    country table and, for each feature whose name is exactly the requested
    one, one row per single part of its repaired geometry; a row differs from
    its feature in the geometry cell only, and carries the requested name.
    Features without geometry contribute no row. *)
Theorem selection_rows (countries s0 : DataFrame G) (name : string) :
  snd (selection countries name) = Ok s0 ->
  exists ni gi,
    col_index "name" (columns countries) = Some ni
    /\ col_index "geometry" (columns countries) = Some gi
    /\ columns s0 = columns countries
    /\ rows s0 =
       flat_map (fun r0 => match cell_at gi r0 with
                           | CGeom g => map (fun p => set_nth gi (CGeom p) r0)
                                            (parts (buffer g 0))
                           | _ => []
                           end)
                (filter (keep_row name ni) (rows countries))
    /\ forall o, In o (rows s0) -> cell_at ni o = CStr name.
Proof. exact (selection_rows_of countries s0 name). Qed.

Lemma filter_all {A} (p : A -> bool) (l : list A) :
  (forall x, In x l -> p x = true) -> filter p l = l.
Proof.
  induction l as [|x l IH]; simpl; intros Hp; [reflexivity|].
  rewrite (Hp x), IH by auto. reflexivity.
Qed.

(** The pipeline on its own output, under the same name: every row of the
    output passes the name filter again, so nothing is lost there; the
    pipeline stops when the output has no row, and otherwise returns the
    columns of the output and its rows with the zero-distance buffer and the
    split applied once more. *)
Theorem selection_again (countries out : DataFrame G) (name : string) :
  snd (selection countries name) = Ok out ->
  exists gi,
    col_index "geometry" (columns out) = Some gi
    /\ snd (selection out name) =
       match rows out with
       | [] => Stop
       | _ :: _ =>
           Ok {| columns := columns out;
                 rows := flat_map (explode_row gi)
                                  (map (repair_row gi) (rows out)) |}
       end.
Proof.
  intros Hsel.
  destruct (selection_rows_of _ _ _ Hsel)
    as (ni & gi & Hni & Hgi & Hcols & _ & Hname).
  exists gi. rewrite Hcols. split; [exact Hgi|].
  rewrite selection_value, Hcols, Hni, Hgi.
  rewrite (filter_all (keep_row name ni) (rows out)).
  - now destruct (rows out).
  - intros o Ho. unfold keep_row. rewrite (Hname o Ho). simpl.
    apply String.eqb_refl.
Qed.

(** The buffer stage, composed: one row per selection row, holding the
    geometry reprojected to EPSG:3857, grown by [km * 1000] metres and
    reprojected to EPSG:4326; the other columns are gone. *)
Theorem buffered_rows (s0 b : DataFrame G) (km : Z) :
  snd (buffering s0 km) = Ok b ->
  exists gi,
    col_index "geometry" (columns s0) = Some gi
    /\ columns b = ["geometry"]
    /\ rows b = map (fun o => [buffered_cell km (cell_at gi o)]) (rows s0).
Proof.
  unfold buffering. rewrite snd_bind. cbn [call snd].
  unfold map_geometry at 1.
  destruct (col_index "geometry" (columns s0)) as [gi|] eqn:Egi;
    cbn [res_bind]; [|discriminate].
  rewrite snd_bind. cbn [call snd]. unfold geometry. cbn [columns rows].
  rewrite Egi. cbn [res_map res_bind snd].
  unfold map_geometry. cbn [columns rows].
  change (col_index "geometry" ["geometry"]) with (Some 0%nat).
  intros [= <-]. exists gi. cbn [columns rows].
  do 2 (split; [reflexivity|]). rewrite !map_map. apply map_ext. intros o.
  unfold buffered_cell.
  destruct (cell_at gi o) as [ | | | | |g] eqn:Ec; rewrite ?Ec; try reflexivity.
  assert (Hc : cell_at gi (set_nth gi (CGeom (to_crs 4326 3857 g)) o) =
               CGeom (to_crs 4326 3857 g)).
  { unfold cell_at. apply nth_set_nth_eq. eapply cell_geom_in_range; eassumption. }
  rewrite Hc. reflexivity.
Qed.

Lemma membership_format (pts s0 j : DataFrame G) (name : string) (ni gi : nat) :
  columns pts = ["id"; "lat"; "lon"; "geometry"] ->
  (forall l, In l (rows pts) -> List.length l = 4%nat) ->
  col_index "name" (columns s0) = Some ni ->
  col_index "geometry" (columns s0) = Some gi ->
  (forall o, In o (rows s0) -> cell_at ni o = CStr name) ->
  snd (membership pts s0) = Ok j ->
  columns j = ["id"; "lat"; "lon"; "geometry"; "index_right"; "name"; "inside"]
  /\ rows j = flat_map (table_rows name s0 gi) (rows pts).
Proof.
  intros Hcols Hlen Hni Hgi Hname.
  unfold membership. rewrite snd_bind. cbn [lift snd].
  unfold take_columns. cbn [indices]. rewrite Hni, Hgi.
  cbn [res_map res_bind]. rewrite snd_bind. cbn [call snd].
  unfold sjoin. cbn [columns rows]. rewrite Hcols.
  change (col_index "geometry" ["id"; "lat"; "lon"; "geometry"]) with (Some 3%nat).
  change (col_index "geometry" ["name"; "geometry"]) with (Some 1%nat).
  cbn [res_bind lift snd remove_nth]. unfold add_column. cbn [columns rows].
  change (col_index "name" (["id"; "lat"; "lon"; "geometry"]
                              ++ ["index_right"; "name"])) with (Some 5%nat).
  intros [= <-]. cbn [columns rows]. split; [reflexivity|].
  rewrite map_flat_map_comm. apply flat_map_ext_on. intros l Hl.
  specialize (Hlen l Hl).
  destruct l as [|x1 [|x2 [|x3 [|x4 [|x5 l]]]]]; try discriminate.
  unfold matches, table_rows. rewrite enumerate_map, filter_of_map.
  cbn [snd cell_at nth].
  set (ms := filter _ (enumerate 0 (rows s0))).
  assert (Hms : forall jr, In jr ms -> cell_at ni (snd jr) = CStr name).
  { intros jr Hjr. apply Hname. apply filter_In in Hjr.
    eapply In_enumerate. exact (proj1 Hjr). }
  destruct ms as [|m ms']; [reflexivity|].
  transitivity
    (map (fun r => r ++ [notna (cell_at 5 r)])
         (map (fun jr : nat * list (Cell G) =>
                 [x1; x2; x3; x4] ++ CInt (Z.of_nat (fst jr))
                   :: remove_nth 1 (snd jr))
              (map (fun jr : nat * list (Cell G) =>
                      (fst jr, [cell_at ni (snd jr); cell_at gi (snd jr)]))
                   (m :: ms')))); [reflexivity|].
  rewrite !map_map. apply map_ext_in. intros jr Hjr.
  cbn [fst snd remove_nth List.app cell_at nth]. now rewrite (Hms jr Hjr).
Qed.
End RowByRow.

(** ** One row per sample point *)

Lemma flat_map_singletons {A B} (f : A -> list B) (g : A -> B) (l : list A) :
  (forall x, In x l -> f x = [g x]) -> flat_map f l = map g l.
Proof.
  induction l as [|x l IH]; simpl; intros Hfg; [reflexivity|].
  rewrite (Hfg x), IH by auto. reflexivity.
Qed.

Lemma skipn_own_length {A} (l r : list A) : skipn (List.length l) (l ++ r) = r.
Proof. induction l as [|x l IH]; simpl; [reflexivity | exact IH]. Qed.

Lemma filter_none {A} (l : list A) : filter (fun _ => false) l = [].
Proof. induction l as [|x l IH]; simpl; [reflexivity | exact IH]. Qed.

Section OneRowPerPoint.
Context {G : Type} `{Geometry G} {S : Type} `{Generator S}.
Variable repr_float : R -> string.

(** With one feature of the requested name, whose repaired geometry has no
    two parts around a common point, a point lies within at most one row of
    the selection. *)
Lemma one_feature_pieces (countries s0 : DataFrame G) (name : string)
      (ni gi : nat) (r0 : list (Cell G)) (pt : Cell G) :
  snd (selection countries name) = Ok s0 ->
  col_index "name" (columns countries) = Some ni ->
  col_index "geometry" (columns countries) = Some gi ->
  filter (keep_row name ni) (rows countries) = [r0] ->
  (forall g q, cell_at gi r0 = CGeom g ->
               (List.length (filter (within q) (parts (buffer g 0))) <= 1)%nat) ->
  (pieces_around s0 pt <= 1)%nat.
Proof.
  intros Hsel Hni Hgi Hone Hparts.
  destruct (selection_rows_of _ _ _ Hsel)
    as (ni' & gi' & Hni' & Hgi' & Hcols & Hrows & _).
  rewrite Hni in Hni'. rewrite Hgi in Hgi'.
  injection Hni' as <-. injection Hgi' as <-.
  unfold pieces_around. rewrite Hcols, Hgi, Hrows, Hone.
  cbn [flat_map]. rewrite app_nil_r.
  destruct (cell_at gi r0) as [ | | | | |g] eqn:Ec; try (simpl; lia).
  rewrite filter_map_length.
  rewrite (filter_ext _ (fun p => cell_within pt (CGeom p))).
  - destruct pt as [ | | | | |q]; cbn [cell_within];
      try (rewrite filter_none; simpl; lia).
    exact (Hparts g q eq_refl).
  - intros p. unfold cell_at. rewrite nth_set_nth_eq; [reflexivity|].
    eapply cell_geom_in_range; eassumption.
Qed.

Context `{!UniformContract S}.

End OneRowPerPoint.

Section OneRowDemo.
Import Demo.

End OneRowDemo.

(** ** The table, the counters and the layers of a completed run *)

Lemma partition_length {A} (p q : A -> bool) (l : list A) :
  (forall x, In x l -> q x = negb (p x)) ->
  (List.length (filter p l) + List.length (filter q l) = List.length l)%nat.
Proof.
  induction l as [|x l IH]; simpl; intros Hpq; [reflexivity|].
  rewrite (Hpq x) by auto. specialize (IH (fun y Hy => Hpq y (or_intror Hy))).
  destruct (p x); simpl; lia.
Qed.

Lemma list_sum_indicator {A} (p : A -> bool) (l : list A) :
  list_sum (map (fun x => if p x then 1%nat else 0%nat) l) =
  List.length (filter p l).
Proof.
  induction l as [|x l IH]; simpl; [reflexivity|].
  destruct (p x); simpl; now rewrite IH.
Qed.

Lemma list_sum_ext_on {A} (f g : A -> nat) (l : list A) :
  (forall x, In x l -> f x = g x) ->
  list_sum (map f l) = list_sum (map g l).
Proof.
  induction l as [|x l IH]; simpl; intros Hfg; [reflexivity|].
  rewrite (Hfg x), IH by auto. reflexivity.
Qed.

Section Counts.
Context {G : Type} `{Geometry G} {S : Type} `{Generator S}.
Variable repr_float : R -> string.

Lemma sample_rows_length (l : list (Cell G)) :
  In l (rows (sample_points (G:=G) (S:=S))) -> List.length l = 4%nat.
Proof.
  unfold sample_points.
  destruct (uniform (default_rng 42) (-60) 75 600) as [lats rng1].
  destruct (uniform rng1 (-180) 180 600) as [lons rng2]. cbn [rows].
  intros Hin. apply in_map_iff in Hin. destruct Hin as ([i [la lo]] & <- & _).
  reflexivity.
Qed.

Lemma table_rows_flags (name : string) (s0 : DataFrame G) (gi : nat)
      (l : list (Cell G)) :
  col_index "geometry" (columns s0) = Some gi ->
  List.length l = 4%nat ->
  let n := pieces_around s0 (cell_at 3 l) in
  List.length (filter (fun row => is_true (cell_at 6 row))
                      (table_rows name s0 gi l)) = n
  /\ List.length (filter (fun row => is_not_true (cell_at 6 row))
                         (table_rows name s0 gi l)) =
     (if (n =? 0)%nat then 1%nat else 0%nat)
  /\ forall row, In row (table_rows name s0 gi l) ->
                 exists b, cell_at 6 row = CBool b.
Proof.
  intros Hgi Hlen. destruct l as [|x1 [|x2 [|x3 [|x4 [|x5 l]]]]]; try discriminate.
  unfold pieces_around. rewrite Hgi. cbv zeta.
  rewrite <- (filter_enumerate_length
                (fun r => cell_within (cell_at 3 [x1; x2; x3; x4]) (cell_at gi r))
                (rows s0) 0).
  unfold table_rows.
  destruct (filter _ (enumerate 0 (rows s0))) as [|m ms].
  - simpl. do 2 (split; [reflexivity|]). intros row [<- | []]. eexists. reflexivity.
  - remember (m :: ms) as mm. rewrite !filter_of_map.
    cbn [List.app cell_at nth is_true is_not_true].
    assert (Hall : filter (fun _ : nat * list (Cell G) => true) mm = mm).
    { clear. induction mm as [|x mm IH]; simpl; [reflexivity | now rewrite IH]. }
    assert (Hnone : filter (fun _ : nat * list (Cell G) => false) mm = []).
    { clear. induction mm as [|x mm IH]; simpl; [reflexivity | exact IH]. }
    rewrite Hall, Hnone, length_map. subst mm. cbn [List.length Nat.eqb map].
    do 2 (split; [reflexivity|]). intros row Hin.
    destruct Hin as [<- | Hin];
      [|apply in_map_iff in Hin; destruct Hin as (jr & <- & _)];
      eexists; reflexivity.
Qed.

Lemma table_format_of_run (fetched : DataFrame G) (inp : Inputs) (r : Render) :
  snd (main (S:=S) repr_float fetched inp) = Ok r ->
  exists gi,
    col_index "geometry" (columns (sel r)) = Some gi
    /\ columns (joined r) =
       ["id"; "lat"; "lon"; "geometry"; "index_right"; "name"; "inside"]
    /\ rows (joined r) =
       flat_map (table_rows (country_name inp) (sel r) gi)
                (rows (snd (load_data (S:=S) fetched))).
Proof.
  unfold main. rewrite snd_run. intros Hr.
  destruct (app_inv _ _ _ _ Hr) as (Hsel & Hj & _).
  destruct (selection_rows_of _ _ _ Hsel) as (ni & gi & Hni & Hgi & Hcols & _ & Hname).
  rewrite <- Hcols in Hni, Hgi. exists gi. split; [exact Hgi|].
  eapply membership_format; try eassumption.
  - apply sample_points_columns.
  - apply sample_rows_length.
Qed.

(** The rows of the Membership Table in a completed run: after the four
    cells of its sample point, a row holds the position of a piece the point
    lies within, the selected name and [True], or, for a point within no
    piece, two missing values and [False]; rows come in point order, one per
    matching piece. *)
Theorem membership_table_format (fetched : DataFrame G) (inp : Inputs) (r : Render) :
  snd (main (S:=S) repr_float fetched inp) = Ok r ->
  exists gi,
    col_index "geometry" (columns (sel r)) = Some gi
    /\ columns (joined r) =
       ["id"; "lat"; "lon"; "geometry"; "index_right"; "name"; "inside"]
    /\ rows (joined r) =
       flat_map (table_rows (country_name inp) (sel r) gi)
                (rows (snd (load_data (S:=S) fetched))).
Proof. exact (table_format_of_run fetched inp r). Qed.

(** The counters against the table, in a completed run: the rows flagged
    inside and the rows flagged outside split the Membership Table; "Points
    inside" is the number of flagged rows, which is the number of (point,
    piece) pairs with the point within the piece; the outside rows are the
    points within no piece. *)
Theorem inside_outside_counts (fetched : DataFrame G) (inp : Inputs) (r : Render) :
  snd (main (S:=S) repr_float fetched inp) = Ok r ->
  let pts := snd (load_data (S:=S) fetched) in
  let pieces := fun l => pieces_around (sel r) (geometry_cell pts l) in
  (List.length (rows (inside_pts r)) + List.length (rows (outside_pts r)) =
   List.length (rows (joined r)))%nat
  /\ points_inside r = Ok (List.length (rows (inside_pts r)))
  /\ List.length (rows (inside_pts r)) = list_sum (map pieces (rows pts))
  /\ List.length (rows (outside_pts r)) =
     List.length (filter (fun l => (pieces l =? 0)%nat) (rows pts)).
Proof.
  intros Hr pts pieces.
  destruct (table_format_of_run _ _ _ Hr) as (gi & Hgi & Hc & Hrows).
  fold pts in Hrows.
  unfold main in Hr. rewrite snd_run in Hr.
  destruct (app_full _ _ _ _ Hr)
    as (options & ins & outs & gs & rep & flags & _ & Hins & Hip & Houts & Hop
        & _ & _ & _ & Hflags & _).
  unfold where_col in Hins, Houts. rewrite Hc in Hins, Houts.
  cbn [col_index index_of String.eqb Ascii.eqb Bool.eqb option_map] in Hins, Houts.
  injection Hins as <-. injection Houts as <-.
  unfold take_columns, filter_rows in Hip, Hop. cbn [columns rows] in Hip, Hop.
  rewrite Hc in Hip, Hop.
  cbn [indices col_index index_of String.eqb Ascii.eqb Bool.eqb option_map
       res_map res_bind] in Hip, Hop.
  injection Hip as Hip. injection Hop as Hop.
  rewrite <- Hip, <- Hop. cbn [rows]. rewrite !length_map.
  unfold getitem in Hflags. rewrite Hc in Hflags.
  cbn [col_index index_of String.eqb Ascii.eqb Bool.eqb option_map] in Hflags.
  injection Hflags as <-.
  assert (Hpieces : forall l, In l (rows pts) -> pieces l = pieces_around (sel r) (cell_at 3 l)).
  { intros l _. unfold pieces, geometry_cell, pts. cbn [load_data snd].
    now rewrite sample_points_columns. }
  assert (Hlen4 : forall l, In l (rows pts) -> List.length l = 4%nat)
    by apply sample_rows_length.
  split; [|split; [|split]].
  - apply partition_length. intros row Hin. rewrite Hrows in Hin.
    apply in_flat_map in Hin. destruct Hin as (l & Hl & Hrow).
    destruct (table_rows_flags (country_name inp) (sel r) gi l Hgi (Hlen4 l Hl))
      as (_ & _ & Hb).
    destruct (Hb row Hrow) as [b ->]. now destruct b.
  - unfold points_inside, getitem. rewrite Hc.
    cbn [col_index index_of String.eqb Ascii.eqb Bool.eqb option_map res_map res_bind].
    unfold count_true. now rewrite filter_map_length.
  - rewrite Hrows, filter_flat_map, flat_map_length_sum.
    apply list_sum_ext_on. intros l Hl. rewrite (Hpieces l Hl).
    apply (table_rows_flags (country_name inp) (sel r) gi l Hgi (Hlen4 l Hl)).
  - rewrite Hrows, filter_flat_map, flat_map_length_sum.
    rewrite <- list_sum_indicator. apply list_sum_ext_on. intros l Hl.
    rewrite (Hpieces l Hl).
    apply (table_rows_flags (country_name inp) (sel r) gi l Hgi (Hlen4 l Hl)).
Qed.

(** The layers of the chart, in a completed run: the selection is always
    drawn; the outline of the buffer exactly when the slider is above 0; the
    country boundaries exactly when their box is ticked; the inside points
    when there are any, the outside points when their box is ticked and there
    are any.  There are between one and five layers. *)
Theorem layers_of_run (fetched : DataFrame G) (inp : Inputs) (r : Render) :
  snd (main (S:=S) repr_float fetched inp) = Ok r ->
  let countries := fst (load_data (S:=S) fetched) in
  In (GeoJsonLayer (sel r) true true (Some [30; 144; 255; 60]%Z)
                   [30; 144; 255; 200]%Z 2 true) (layers r)
  /\ (In (GeoJsonLayer (buffered r) true false None [255; 140; 0; 180]%Z 2 true)
         (layers r) <-> (0 < buffer_km inp)%Z)
  /\ (In (GeoJsonLayer countries true false None [100; 100; 100; 120]%Z 1 true)
         (layers r) <-> show_all_countries inp = true)
  /\ (In (ScatterplotLayer (inside_pts r) "[lon, lat]" 20000 "meters"
                           [0; 122; 255; 180]%Z true) (layers r)
      <-> rows (inside_pts r) <> [])
  /\ (In (ScatterplotLayer (outside_pts r) "[lon, lat]" 15000 "meters"
                           [120; 120; 120; 120]%Z true) (layers r)
      <-> show_points_outside inp = true /\ rows (outside_pts r) <> [])
  /\ (1 <= List.length (layers r) <= 5)%nat.
Proof.
  intros Hr countries. unfold main in Hr. rewrite snd_run in Hr.
  destruct (app_full _ _ _ _ Hr)
    as (options & ins & outs & gs & rep & flags & _ & _ & _ & _ & _
        & _ & _ & _ & _ & Hl & _).
  fold countries in Hl. revert Hl. unfold build_layers, append_if.
  destruct (show_all_countries inp) eqn:Eall;
    destruct (0 <? buffer_km inp)%Z eqn:Ekm;
    destruct (show_points_outside inp) eqn:Eout;
    destruct (rows (inside_pts r)) as [|ri ris] eqn:Ein;
    destruct (rows (outside_pts r)) as [|ro ros] eqn:Eo;
    cbn; intros [= <-];
    try (apply Z.ltb_lt in Ekm); try (apply Z.ltb_ge in Ekm);
    (split; [simpl; tauto|]);
    (split; [simpl; split; [intros Hin; try assumption;
                            repeat (destruct Hin as [Hin | Hin]; try discriminate Hin);
                            try contradiction; lia
                           | intros Hlt; try lia; tauto]|]);
    (split; [simpl; split; [intros Hin; try reflexivity;
                            repeat (destruct Hin as [Hin | Hin]; try discriminate Hin);
                            try contradiction
                           | intros Ht; try discriminate Ht; tauto]|]);
    (split; [simpl; split; [intros Hin; try discriminate;
                            repeat (destruct Hin as [Hin | Hin]; try discriminate Hin);
                            try contradiction
                           | intros Hne; try (now elim Hne); tauto]|]);
    (split; [simpl; split; [intros Hin; try (split; [reflexivity | discriminate]);
                            repeat (destruct Hin as [Hin | Hin]; try discriminate Hin);
                            try contradiction
                           | intros [Ht Hne]; try discriminate Ht;
                             try (now elim Hne); tauto]|]);
    simpl; lia.
Qed.

Lemma app_sidebar_ok (fetched : DataFrame G) (inp : Inputs) (r : Render) :
  snd (app repr_float fetched inp) = Ok r ->
  snd (sidebar (fst (load_data (S:=S) fetched))) = Ok tt.
Proof.
  unfold app, load_data. cbn [fst snd].
  repeat (rewrite !snd_bind; cbn [emit snd res_bind]).
  destruct (snd (sidebar _)) as [[]| |e]; cbn [res_bind];
    [reflexivity | discriminate | discriminate].
Qed.

Ltac peel3 :=
  repeat (rewrite !snd_bind; cbn [emit lift call ret snd res_bind res_map]).

Ltac next3 E := rewrite E; cbn [res_bind]; peel3.

(** Moving the buffer slider leaves the rest of a completed run as it was:
    the run still completes, with the same selection, Membership Table,
    inside and outside points, centre, fitted view and CSV text. *)
Theorem slider_changes_only_the_buffer (fetched : DataFrame G) (inp : Inputs)
        (d1 d2 : Z) (r1 : Render) :
  snd (main (S:=S) repr_float fetched (with_buffer inp d1)) = Ok r1 ->
  exists r2,
    snd (main (S:=S) repr_float fetched (with_buffer inp d2)) = Ok r2
    /\ sel r2 = sel r1 /\ joined r2 = joined r1
    /\ inside_pts r2 = inside_pts r1 /\ outside_pts r2 = outside_pts r1
    /\ center r2 = center r1 /\ view r2 = view r1 /\ csv r2 = csv r1.
Proof.
  unfold main. rewrite !snd_run. intros Hr.
  pose proof (app_sidebar_ok _ _ _ Hr) as Hside.
  destruct (app_inv _ _ _ _ Hr) as (Hsel & Hj & _ & Hv & He & _).
  destruct (app_full _ _ _ _ Hr)
    as (options & ins & outs & gs & rep & flags & _ & Hins & Hip & Houts & Hop
        & Hg & Hrep & Hc & Hflags & _).
  cbn [with_buffer country_name] in Hsel.
  destruct (selection_shape _ _ _ Hsel) as (ni & gi & _ & Hgi & _).
  destruct (buffering_ok (sel r1) d2 gi Hgi) as [b2 Hb].
  destruct (build_layers_ok (with_buffer inp d2) (fst (load_data (S:=S) fetched))
                            (sel r1) b2 (inside_pts r1) (outside_pts r1))
    as [ls Hls].
  unfold app.
  change (load_data fetched) with
    (fst (load_data (S:=S) fetched), snd (load_data (S:=S) fetched)).
  cbv iota. cbn [with_buffer country_name buffer_km].
  peel3. next3 Hside. next3 Hsel. next3 Hb. next3 Hj.
  next3 Hins. next3 Hip. next3 Houts. next3 Hop. next3 Hg. next3 Hrep.
  next3 Hflags. next3 Hls. next3 He.
  eexists. split; [reflexivity|].
  cbn [sel joined inside_pts outside_pts center view csv].
  rewrite Hc, Hv. repeat split; reflexivity.
Qed.

(** The chart of a completed run is fitted to the exploded, unbuffered
    selection.  When some piece of the selection has bounds the view is a
    centre and a zoom, and the zoom lies in [2, 8]; when none has, the view is
    the undefined one the arithmetic yields on all-NaN bounds. *)
Theorem chart_view (fetched : DataFrame G) (inp : Inputs) (r : Render) :
  snd (main (S:=S) repr_float fetched inp) = Ok r ->
  view r = option_map view_of_bounds (total_bounds (sel r))
  /\ (forall lat lon zoom, view r = Some (lat, lon, zoom) -> 2 <= zoom <= 8)
  /\ (forall b, total_bounds (sel r) = Some b ->
                exists lat lon zoom,
                  view r = Some (lat, lon, zoom) /\ 2 <= zoom <= 8)
  /\ (total_bounds (sel r) = None -> view r = None)
  /\ In (PydeckChart (layers r) (view r))
        (fst (main (S:=S) repr_float fetched inp)).
Proof.
  intros Hr. destruct (complete_page_events repr_float _ _ _ Hr) as (options & n & Ht).
  unfold main in Hr. rewrite snd_run in Hr.
  destruct (app_inv _ _ _ _ Hr) as (_ & _ & _ & Hv & _).
  unfold view_from_bounds in Hv.
  assert (Hz : forall lat lon zoom, view r = Some (lat, lon, zoom) -> 2 <= zoom <= 8).
  { intros lat lon zoom Hz. rewrite Hv in Hz.
    destruct (total_bounds (sel r)) as [[[[minx miny] maxx] maxy]|];
      [|discriminate].
    simpl in Hz. injection Hz as _ _ <-. apply np_clip_bounds. lra. }
  split; [exact Hv|]. split; [exact Hz|]. split; [|split].
  - intros b Hb. rewrite Hb in Hv. simpl in Hv.
    destruct (view_of_bounds b) as [[lat lon] zoom] eqn:Eb.
    exists lat, lon, zoom. split; [exact Hv|]. exact (Hz lat lon zoom Hv).
  - intros Hb. now rewrite Hb in Hv.
  - rewrite Ht. apply in_or_app. right.
    unfold page_after_selection. apply in_or_app. right.
    apply in_or_app. right. apply in_or_app. right. simpl. tauto.
Qed.
End Counts.

(** ** The further theorems at concrete inputs *)

Section MoreDemoRuns.
Import Demo.

Lemma load_data_keeps_the_rest_witness :
  rows (fst (load_data twins)) =
  filter (fun r => lower_ne "antarctica" (cell_at 0 r)) (rows twins)
  /\ List.length (columns (fst (load_data twins))) = List.length (columns twins).
Proof.
  apply (load_data_keeps_the_rest (S:=Z) twins 0). reflexivity.
Defined.

Lemma no_name_column_raises_witness :
  main repr_float unnamed (pick "Atlantis" 50) =
  ([ SetPageConfig "GeoPandas + Streamlit Mini Demo" "wide";
     Title title_text;
     Markdown intro_text;
     Header "Controls";
     ErrorMessage (KeyError "name") ],
   Raise (KeyError "name")).
Proof.
  apply (no_name_column_raises (S:=Z) repr_float unnamed (pick "Atlantis" 50)).
  intros c Hin. simpl in Hin.
  repeat (destruct Hin as [<- | Hin]; [reflexivity|]). contradiction.
Defined.

Lemma sidebar_options_witness :
  exists options idx,
    sidebar (fst (load_data twins)) =
      ([ Header "Controls";
         Selectbox "Country:" options idx;
         Slider "Buffer distance (km)" 0 200 50 10;
         Checkbox "Show all country boundaries" true;
         Checkbox "Show points outside country" false ], Ok tt)
    /\ (forall x, In x options <-> In x ["Atlantis"; "Atlantis"])
    /\ NoDup options.
Proof.
  destruct (sidebar_options (fst (load_data twins)) 0 ["Atlantis"; "Atlantis"]
                            eq_refl eq_refl)
    as (options & idx & Hs & Hin & Hnd & _).
  exists options, idx. repeat split; try assumption; apply Hin.
Defined.

Lemma complete_page_witness :
  exists r options n,
    snd (main repr_float twins (pick "Atlantis" 50)) = Ok r
    /\ points_inside r = Ok n
    /\ fst (main repr_float twins (pick "Atlantis" 50)) =
       page_before_selection options
       ++ page_after_selection (pick "Atlantis" 50) n r.
Proof.
  destruct twins_run as (r & Hr & _).
  destruct (complete_page repr_float twins _ r Hr) as (options & n & Hn & Ht).
  exists r, options, n. repeat split; assumption.
Defined.

Lemma no_part_raises_index_error_witness :
  exists options,
    main repr_float nullshape (pick "Nowhere" 50) =
    (page_before_selection options ++ rendering_calls 50
       ++ [ErrorMessage IndexError],
     Raise IndexError).
Proof.
  apply (no_part_raises_index_error (S:=Z) repr_float nullshape
                                    (pick "Nowhere" 50) nowhere);
    reflexivity.
Defined.

Lemma selection_rows_witness :
  columns atlantis = columns (fst (load_data twins))
  /\ (forall o, In o (rows atlantis) -> cell_at 0 o = CStr "Atlantis").
Proof.
  destruct (selection_rows (fst (load_data twins)) atlantis "Atlantis"
                           twins_selection)
    as (ni & gi & Hni & _ & Hcols & _ & Hname).
  injection Hni as <-. split; assumption.
Defined.

Lemma buffered_rows_witness :
  exists b,
    snd (buffering atlantis 50) = Ok b
    /\ columns b = ["geometry"]
    /\ rows b = map (fun o => [buffered_cell 50 (cell_at 1 o)]) (rows atlantis).
Proof.
  destruct (buffering_ok atlantis 50 1 eq_refl) as [b Hb].
  destruct (buffered_rows atlantis b 50 Hb) as (gi & Hgi & Hc & Hrows).
  injection Hgi as <-. exists b. repeat split; assumption.
Defined.

Lemma membership_table_format_witness :
  exists r gi,
    snd (main repr_float twins (pick "Atlantis" 50)) = Ok r
    /\ rows (joined r) =
       flat_map (table_rows "Atlantis" (sel r) gi) (rows (snd (load_data twins))).
Proof.
  destruct twins_run as (r & Hr & _).
  destruct (membership_table_format repr_float twins _ r Hr) as (gi & _ & _ & Hrows).
  exists r, gi. split; assumption.
Defined.

Lemma inside_outside_counts_witness :
  exists r,
    snd (main repr_float twins (pick "Atlantis" 50)) = Ok r
    /\ (List.length (rows (inside_pts r)) + List.length (rows (outside_pts r)) =
        List.length (rows (joined r)))%nat
    /\ points_inside r = Ok (List.length (rows (inside_pts r))).
Proof.
  destruct twins_run as (r & Hr & _).
  destruct (inside_outside_counts repr_float twins _ r Hr) as (Hsum & Hn & _).
  exists r. repeat split; assumption.
Defined.

Lemma layers_of_run_witness :
  exists r,
    snd (main repr_float twins (pick "Atlantis" 50)) = Ok r
    /\ In (GeoJsonLayer (buffered r) true false None [255; 140; 0; 180]%Z 2 true)
          (layers r).
Proof.
  destruct twins_run as (r & Hr & _).
  destruct (layers_of_run repr_float twins _ r Hr) as (_ & Hb & _).
  exists r. split; [exact Hr|]. apply Hb. reflexivity.
Defined.

Lemma slider_changes_only_the_buffer_witness :
  exists r1 r2,
    snd (main repr_float twins (pick "Atlantis" 50)) = Ok r1
    /\ snd (main repr_float twins (pick "Atlantis" 200)) = Ok r2
    /\ joined r2 = joined r1 /\ csv r2 = csv r1.
Proof.
  destruct twins_run as (r1 & Hr & _).
  destruct (slider_changes_only_the_buffer repr_float twins (pick "Atlantis" 0)
                                           50 200 r1 Hr)
    as (r2 & Hr2 & _ & Hj & _ & _ & _ & _ & Hc).
  exists r1, r2. repeat split; assumption.
Defined.

Lemma chart_view_witness :
  exists r zoom,
    snd (main repr_float island (pick "Isla" 50)) = Ok r
    /\ view r = Some (0, 0, zoom)
    /\ 2 <= zoom <= 8.
Proof.
  destruct island_run as (r & Hr & Hsel).
  destruct (chart_view repr_float island _ r Hr) as (Hv & Hz & _).
  rewrite Hsel in Hv.
  change (total_bounds isla)
    with (Some (-10 - 0, -5 - 0, 10 + 0, 5 + 0)) in Hv.
  cbn [option_map view_of_bounds] in Hv.
  set (z := np_clip _ 2 8) in Hv.
  replace ((-5 - 0 + (5 + 0)) / 2) with 0 in Hv by lra.
  replace ((-10 - 0 + (10 + 0)) / 2) with 0 in Hv by lra.
  exists r, z. split; [exact Hr|]. split; [exact Hv|]. exact (Hz 0 0 z Hv).
Defined.

Lemma selection_again_witness :
  exists gi,
    col_index "geometry" (columns atlantis) = Some gi
    /\ snd (selection atlantis "Atlantis") =
       Ok {| columns := columns atlantis;
             rows := flat_map (explode_row gi)
                              (map (repair_row gi) (rows atlantis)) |}.
Proof.
  exact (selection_again (fst (load_data twins)) atlantis "Atlantis"
                         twins_selection).
Defined.
End MoreDemoRuns.
